(** * figma_style_to_flutter: colour and text-style extraction

    A shallow embedding of [main.py] and
    [import_colors_and_text_font_styles_by_id.py].  Both scripts fetch a
    design tree as JSON, walk it collecting solid fill colours and text
    styles, and render a colour sheet and a Dart class.

    Conventions of the embedding:
    - a parsed JSON document is a [value]; a dict is an association list
      in insertion order (each key bound once, the first binding found is
      the dict's binding);
    - a float is the rational it denotes and arithmetic on it is exact:
      the binary64 rounding of [r*255] is not part of the model, and
      neither are infinities and NaN;
    - strings are ASCII text, compared character by character;
    - a Python call returns a [result]: a value, a raised exception, or
      [Unmodelled] where a builtin's output is outside the embedding (the
      text [str] prints for a float or a container, ordering of
      containers);
    - [print] calls of the walker are diagnostics and are left out; the
      messages of the driver are kept as [message]s. *)

From Stdlib Require Import QArith Qround Qabs Lqa Ascii DecimalString DecimalZ HexadecimalZ OrdersEx.
From stdpp Require Import gmap strings list sorting.

Set Warnings "-register-all,-clear-no-such-hyp".
Local Open Scope Z_scope.

(** ** Values and results *)

Inductive value :=
| VNone
| VBool (b : bool)
| VInt (z : Z)
| VFloat (q : Q)
| VStr (s : string)
| VList (l : list value)
| VDict (d : list (string * value)).

Inductive exn := KeyError | TypeError | AttributeError | ValueError.

Inductive result (A : Type) :=
| Ok (a : A)
| Raise (e : exn)
| Unmodelled.
Arguments Ok {A} a.
Arguments Raise {A} e.
Arguments Unmodelled {A}.

#[export] Instance result_ret : MRet result := @Ok.
#[export] Instance result_bind : MBind result := λ A B f m,
  match m with
  | Ok a => f a
  | Raise e => Raise e
  | Unmodelled => Unmodelled
  end.

(** [try: body except Exception: handler]. *)
Definition try_except {A} (body : result A) (handler : exn → result A) : result A :=
  match body with
  | Raise e => handler e
  | r => r
  end.

(** [for x in l: s = f x s], stopping at the first exception. *)
Definition for_each {A S} (f : A → S → result S) : list A → S → result S :=
  fix go l s :=
    match l with
    | [] => Ok s
    | x :: l' => s' ← f x s; go l' s'
    end.

(** Induction over values, with the hypothesis for each element of a list
    and for each bound value of a dict. *)
Fixpoint value_nested_ind (P : value → Prop)
    (HNone : P VNone) (HBool : ∀ b, P (VBool b)) (HInt : ∀ z, P (VInt z))
    (HFloat : ∀ q, P (VFloat q)) (HStr : ∀ s, P (VStr s))
    (HList : ∀ l, Forall P l → P (VList l))
    (HDict : ∀ d, Forall (λ kv, P kv.2) d → P (VDict d))
    (v : value) {struct v} : P v :=
  let rec := value_nested_ind P HNone HBool HInt HFloat HStr HList HDict in
  match v with
  | VNone => HNone
  | VBool b => HBool b
  | VInt z => HInt z
  | VFloat q => HFloat q
  | VStr s => HStr s
  | VList l =>
      HList l ((fix all l : Forall P l :=
                  match l with
                  | [] => Forall_nil_2 P
                  | x :: l' => Forall_cons_2 P x l' (rec x) (all l')
                  end) l)
  | VDict d =>
      HDict d ((fix all d : Forall (λ kv, P kv.2) d :=
                  match d with
                  | [] => Forall_nil_2 _
                  | kv :: d' => Forall_cons_2 _ kv d' (rec kv.2) (all d')
                  end) d)
  end.

(** ** Dicts *)

(** Lookup in continuation style, so that a recursive function may call
    itself on the value found. *)
Definition dict_case {V R} (k : string) (d : list (string * V)) (none : R) (some : V → R) : R :=
  (fix find d :=
     match d with
     | [] => none
     | (k', v) :: d' => if String.eqb k k' then some v else find d'
     end) d.

Definition dict_get {V} (k : string) (d : list (string * V)) : option V :=
  dict_case k d None Some.

(** ** Builtins *)

(** [bool(v)] *)
Definition truthy (v : value) : bool :=
  match v with
  | VNone => false
  | VBool b => b
  | VInt z => negb (z =? 0)
  | VFloat q => negb (Qeq_bool q 0)
  | VStr s => negb (String.eqb s "")
  | VList l => negb (bool_decide (l = []))
  | VDict d => negb (bool_decide (d = []))
  end.

(** [v == s] for a string literal [s] *)
Definition eq_str (v : value) (s : string) : bool :=
  match v with
  | VStr t => String.eqb t s
  | _ => false
  end.

(** [p in s] on strings *)
Fixpoint substringb (p s : string) : bool :=
  String.prefix p s ||
  match s with
  | EmptyString => false
  | String _ s' => substringb p s'
  end.

(** [k in v] for a string literal [k] *)
Definition contains (k : string) (v : value) : result bool :=
  match v with
  | VDict d => Ok (bool_decide (is_Some (dict_get k d)))
  | VStr s => Ok (substringb k s)
  | VList l => Ok (existsb (λ x, eq_str x k) l)
  | _ => Raise TypeError
  end.

(** [v[k]] for a string literal [k] *)
Definition getitem (v : value) (k : string) : result value :=
  match v with
  | VDict d => from_option Ok (Raise KeyError) (dict_get k d)
  | _ => Raise TypeError
  end.

(** [v.get(k, default)] *)
Definition get_or (v : value) (k : string) (dflt : value) : result value :=
  match v with
  | VDict d => Ok (default dflt (dict_get k d))
  | _ => Raise AttributeError
  end.

(** [iter(v)]: the items a [for] loop over [v] visits *)
Definition iterate (v : value) : result (list value) :=
  match v with
  | VList l => Ok l
  | VStr s => Ok ((λ c, VStr (String c EmptyString)) <$> String.list_ascii_of_string s)
  | VDict d => Ok ((λ kv, VStr kv.1) <$> d)
  | _ => Raise TypeError
  end.

(** *** Numbers *)

(** [round(q)] on a float: to the nearest integer, ties to the even one *)
Definition round_half_even (q : Q) : Z :=
  let f := Qfloor q in
  match (q - inject_Z f ?= 1 # 2)%Q with
  | Lt => f
  | Gt => f + 1
  | Eq => if Z.even f then f else f + 1
  end.

(** [round(v * k)] for an integer literal [k].  On a str or a list [v * k]
    repeats the sequence, and [round] of that raises. *)
Definition round_times (v : value) (k : Z) : result Z :=
  match v with
  | VInt z => Ok (z * k)
  | VBool b => Ok (Z.b2z b * k)
  | VFloat q => Ok (round_half_even (q * inject_Z k))
  | _ => Raise TypeError
  end.

(** [int(q)] on a float: towards zero *)
Definition truncate (q : Q) : Z :=
  if Qle_bool 0 q then Qfloor q else Qceiling q.

Definition is_space (c : ascii) : bool :=
  let n := nat_of_ascii c in
  ((9 <=? n) && (n <=? 13) || (28 <=? n) && (n <=? 32))%nat.

Definition digit_of (c : ascii) : option Z :=
  let n := Z.of_nat (nat_of_ascii c) in
  if (48 <=? n) && (n <=? 57) then Some (n - 48) else None.

Fixpoint lstrip (s : string) : string :=
  match s with
  | String c s' => if is_space c then lstrip s' else s
  | EmptyString => s
  end.

Definition strip (s : string) : string :=
  String.rev (lstrip (String.rev (lstrip s))).

(** Decimal digits, single underscores allowed between two digits. *)
Fixpoint digits_value (acc : Z) (after_digit : bool) (s : string) : option Z :=
  match s with
  | EmptyString => if after_digit then Some acc else None
  | String c s' =>
      match digit_of c with
      | Some d => digits_value (10 * acc + d) true s'
      | None =>
          if Ascii.eqb c "_" && after_digit then digits_value acc false s' else None
      end
  end.

(** [int(s)] on a str (the interpreter's cap on the number of digits is
    not modelled) *)
Definition int_of_str (s : string) : option Z :=
  match strip s with
  | String "+" r => digits_value 0 false r
  | String "-" r => Z.opp <$> digits_value 0 false r
  | r => digits_value 0 false r
  end.

(** [int(v)] *)
Definition py_int (v : value) : result Z :=
  match v with
  | VInt z => Ok z
  | VBool b => Ok (Z.b2z b)
  | VFloat q => Ok (truncate q)
  | VStr s => from_option Ok (Raise ValueError) (int_of_str s)
  | _ => Raise TypeError
  end.

(** *** Formatting *)

(** [str(z)] on an int *)
Definition str_int (z : Z) : string :=
  DecimalString.NilZero.string_of_int (Z.to_int z).

Fixpoint upper_hex (d : Hexadecimal.uint) : string :=
  match d with
  | Hexadecimal.Nil => ""
  | Hexadecimal.D0 d => String "0" (upper_hex d)
  | Hexadecimal.D1 d => String "1" (upper_hex d)
  | Hexadecimal.D2 d => String "2" (upper_hex d)
  | Hexadecimal.D3 d => String "3" (upper_hex d)
  | Hexadecimal.D4 d => String "4" (upper_hex d)
  | Hexadecimal.D5 d => String "5" (upper_hex d)
  | Hexadecimal.D6 d => String "6" (upper_hex d)
  | Hexadecimal.D7 d => String "7" (upper_hex d)
  | Hexadecimal.D8 d => String "8" (upper_hex d)
  | Hexadecimal.D9 d => String "9" (upper_hex d)
  | Hexadecimal.Da d => String "A" (upper_hex d)
  | Hexadecimal.Db d => String "B" (upper_hex d)
  | Hexadecimal.Dc d => String "C" (upper_hex d)
  | Hexadecimal.Dd d => String "D" (upper_hex d)
  | Hexadecimal.De d => String "E" (upper_hex d)
  | Hexadecimal.Df d => String "F" (upper_hex d)
  end.

(** [format(z, "02X")]: upper-case hexadecimal, padded with zeros after the
    sign to two characters in all *)
Definition format_02X (z : Z) : string :=
  let digits := upper_hex (N.to_hex_uint (Z.abs_N z)) in
  if z <? 0 then "-" +:+ digits
  else if (String.length digits <? 2)%nat then "0" +:+ digits
  else digits.

(** [str(v)], as an f-string field prints [v] *)
Definition py_str (v : value) : result string :=
  match v with
  | VNone => Ok "None"
  | VBool b => Ok (if b then "True" else "False")
  | VInt z => Ok (str_int z)
  | VStr s => Ok s
  | VFloat _ | VList _ | VDict _ => Unmodelled
  end.

(** [re.sub(r'\W+', '', v)]: on a str, every character that is not a
    letter, a digit or an underscore is dropped. *)
Definition is_word (c : ascii) : bool :=
  let n := nat_of_ascii c in
  ((48 <=? n) && (n <=? 57) || (65 <=? n) && (n <=? 90)
   || (97 <=? n) && (n <=? 122) || (n =? 95))%nat.

Fixpoint drop_non_word (s : string) : string :=
  match s with
  | EmptyString => EmptyString
  | String c s' => if is_word c then String c (drop_non_word s') else drop_non_word s'
  end.

Definition re_sub_non_word (v : value) : result string :=
  match v with
  | VStr s => Ok (drop_non_word s)
  | _ => Raise TypeError
  end.

(** ** Helper functions of the scripts (the same in both) *)

(** [rgb_to_hex(r, g, b)] *)
Definition rgb_to_hex (r g b : value) : result string :=
  r ← round_times r 255;
  g ← round_times g 255;
  b ← round_times b 255;
  Ok (format_02X r +:+ format_02X g +:+ format_02X b).

(** [rgba_to_hex(rgba)] *)
Definition rgba_to_hex (rgba : value) : result string :=
  r ← getitem rgba "r"; r ← round_times r 255;
  g ← getitem rgba "g"; g ← round_times g 255;
  b ← getitem rgba "b"; b ← round_times b 255;
  Ok (format_02X r +:+ format_02X g +:+ format_02X b).

(** [next((f for f in fills if f['type'] == "SOLID"), None)]: the fills
    after the first solid one are not looked at. *)
Fixpoint first_solid (fills : list value) : result value :=
  match fills with
  | [] => Ok VNone
  | f :: fills' =>
      ty ← getitem f "type";
      if eq_str ty "SOLID" then Ok f else first_solid fills'
  end.

Definition fallback_style : value * value * Z * string :=
  (VStr "FontNotFound", VInt 400, 14, "000000").

(** The body of the [try] in [parse_text_style]. *)
Definition parse_text_style_try (node : value) : result (value * value * Z * string) :=
  style ← getitem node "style";
  fontFamily ← get_or style "fontFamily" VNone;
  let fontFamily := if truthy fontFamily then fontFamily else VStr "FontNotFound" in
  fontWeight ← get_or style "fontWeight" (VInt 400);
  fontSize ← get_or style "fontSize" (VInt 14);
  fontSize ← py_int fontSize;
  fills ← get_or node "fills" (VList []);
  color ←
    (if truthy fills then
       items ← iterate fills;
       solid_fill ← first_solid items;
       if truthy solid_fill then
         rgba ← getitem solid_fill "color";
         rgba_to_hex rgba
       else Ok "000000"
     else Ok "000000");
  Ok (fontFamily, fontWeight, fontSize, color).

(** [parse_text_style(node)] *)
Definition parse_text_style (node : value) : result (value * value * Z * string) :=
  try_except (parse_text_style_try node) (λ _, Ok fallback_style).

(** ** The walker *)

(** A [style_def] dict. *)
Record style_def := StyleDef {
  name : string;
  fontFamily : value;
  color : string;
  fontSize : Z;
  fontWeight : value;
}.

(** The three collections [parse_node] closes over. *)
Record state := State {
  colors : gmap string string;
  text_styles : list style_def;
  unique_styles : gset string;
}.

Definition init : state := State ∅ [] ∅.

(** One pass of the loop over [node["fills"]]. *)
Definition add_fill (fill : value) (colors : gmap string string) : result (gmap string string) :=
  ty ← getitem fill "type";
  if eq_str ty "SOLID" then
    color ← getitem fill "color";
    r ← getitem color "r";
    g ← getitem color "g";
    b ← getitem color "b";
    hex_code ← rgb_to_hex r g b;
    Ok (<["c" +:+ hex_code := "#" +:+ hex_code]> colors)
  else Ok colors.

(** [if "fills" in node: for fill in node["fills"]: ...] *)
Definition extract_colors (node : value) (colors : gmap string string) : result (gmap string string) :=
  has_fills ← contains "fills" node;
  if has_fills : bool then
    fills ← getitem node "fills";
    items ← iterate fills;
    for_each add_fill items colors
  else Ok colors.

(** [f"{fontSize}_{color}_{fontWeight}_{fontName}"] *)
Definition style_key (fontSize : Z) (color fontWeight fontName : string) : string :=
  str_int fontSize +:+ "_" +:+ color +:+ "_" +:+ fontWeight +:+ "_" +:+ fontName.

Section walker.
(** The two scripts differ in the f-string of [style_name]; its fields
    are [fontSize], [color], [fontWeight] and [fontName]. *)
Variable style_name : Z → string → string → string → string.

(** [if node.get('type') == "TEXT": ...] *)
Definition extract_text_style (node : value) (st : state) : result state :=
  ty ← get_or node "type" VNone;
  if eq_str ty "TEXT" then
    '(fontFamily, fontWeight, fontSize, color) ← parse_text_style node;
    fontName ← re_sub_non_word fontFamily;
    weight ← py_str fontWeight;
    let style_def :=
      StyleDef (style_name fontSize color weight fontName) fontFamily color fontSize fontWeight in
    let key := style_key fontSize color weight fontName in
    if bool_decide (key ∈ unique_styles st) then Ok st
    else Ok (State (colors st) (text_styles st ++ [style_def]) ({[key]} ∪ unique_styles st))
  else Ok st.

(** What [parse_node] does at a node before it recurses. *)
Definition visit (node : value) (st : state) : result state :=
  colors' ← extract_colors node (colors st);
  extract_text_style node (State colors' (text_styles st) (unique_styles st)).

(** [parse_node(node)].  A node that is not a dict never gets past
    [visit] (see [visit_not_dict]); the items of a [children] value that
    is a str or a dict are strs. *)
Fixpoint parse_node (node : value) (st : state) {struct node} : result state :=
  match node with
  | VDict d =>
      st ← visit node st;
      dict_case "children" d (Ok st) (λ children,
        match children with
        | VList l => for_each parse_node l st
        | _ => items ← iterate children; for_each visit items st
        end)
  | _ => visit node st
  end.
End walker.

(** ** Ordering and [sorted] *)

Definition str_ltb (s t : string) : bool :=
  match String_as_OT.compare s t with
  | Lt => true
  | _ => false
  end.

Definition as_number (v : value) : option Q :=
  match v with
  | VInt z => Some (inject_Z z)
  | VBool b => Some (inject_Z (Z.b2z b))
  | VFloat q => Some q
  | _ => None
  end.

(** [v == w] *)
Definition py_eq (v w : value) : result bool :=
  match v, w with
  | VList _, VList _ | VDict _, VDict _ => Unmodelled
  | VStr s, VStr t => Ok (String.eqb s t)
  | VNone, VNone => Ok true
  | _, _ =>
      match as_number v, as_number w with
      | Some p, Some q => Ok (Qeq_bool p q)
      | _, _ => Ok false
      end
  end.

(** [v < w] *)
Definition py_lt (v w : value) : result bool :=
  match v, w with
  | VList _, VList _ => Unmodelled
  | VStr s, VStr t => Ok (str_ltb s t)
  | _, _ =>
      match as_number v, as_number w with
      | Some p, Some q => Ok (match (p ?= q)%Q with Lt => true | _ => false end)
      | _, _ => Raise TypeError
      end
  end.

(** [sorted(l)] under the comparison [lt]: the stable sort.  The items are
    compared in the order of an insertion sort; whenever no two items of
    [l] raise when compared, any comparison sort returns this list. *)
Fixpoint insert_sorted {A} (lt : A → A → result bool) (x : A) (l : list A) : result (list A) :=
  match l with
  | [] => Ok [x]
  | y :: l' =>
      before ← lt y x;
      if before : bool then l'' ← insert_sorted lt x l'; Ok (y :: l'') else Ok (x :: l)
  end.

Definition sorted {A} (lt : A → A → result bool) (l : list A) : result (list A) :=
  foldr (λ x acc, acc ← acc; insert_sorted lt x acc) (Ok []) l.

(** [<] on the [(name, value)] tuples of [colors.items()] *)
Definition item_lt (a b : string * string) : result bool :=
  if negb (String.eqb a.1 b.1) then Ok (str_ltb a.1 b.1) else Ok (str_ltb a.2 b.2).

(** [<] on the tuples [(x['fontSize'], x['color'], x['fontWeight'])] *)
Definition sort_key_lt (a b : style_def) : result bool :=
  if negb (fontSize a =? fontSize b) then Ok (fontSize a <? fontSize b)
  else if negb (String.eqb (color a) (color b)) then Ok (str_ltb (color a) (color b))
  else
    same ← py_eq (fontWeight a) (fontWeight b);
    if same : bool then Ok false else py_lt (fontWeight a) (fontWeight b).

(** ** Output *)

Inductive message :=
| Fetching
| FetchFailed (text : string)
| Fetched
| UsedSingleNode (key : string)
| NodeNotFound (node_id : string) (keys : list string)
| DocumentNotFound (node_id : string)
| Generating (path : string)
| Generated (path : string) (count : nat).

Inductive event :=
| Print (m : message)
| WriteFile (path content : string).

(** A run of the driver: what it has printed and written so far, and how
    it went on. *)
Record io (A : Type) := IO { trace : list event; outcome : result A }.
Arguments IO {A} trace outcome.
Arguments trace {A} _.
Arguments outcome {A} _.

#[export] Instance io_ret : MRet io := λ A a, IO [] (Ok a).
#[export] Instance io_bind : MBind io := λ A B f m,
  match outcome m with
  | Ok a => IO (trace m ++ trace (f a)) (outcome (f a))
  | Raise e => IO (trace m) (Raise e)
  | Unmodelled => IO (trace m) Unmodelled
  end.

Definition emit (e : event) : io unit := IO [e] (Ok tt).
Definition lift {A} (r : result A) : io A := IO [] r.


Definition COLORS_OUTPUT : string := "colors.xml".
Definition TEXTSTYLES_OUTPUT : string := "text_font_style.dart".
Definition FALLBACK_FONTS : list string := ["Open Sans"; "Roboto"; "Noto Sans"].

Definition nl : string := String "010" EmptyString.
Definition dq : string := String "034" EmptyString.

Definition sorted_colors (colors : gmap string string) : result (list (string * string)) :=
  sorted item_lt (map_to_list colors).

Definition color_line (item : string * string) : string :=
  "  <color name=" +:+ dq +:+ item.1 +:+ dq +:+ ">" +:+ item.2 +:+ "</color>" +:+ nl.

Definition xml_content (sorted_colors : list (string * string)) : string :=
  "<?xml version=" +:+ dq +:+ "1.0" +:+ dq +:+ " encoding=" +:+ dq +:+ "UTF-8" +:+ dq +:+ "?>" +:+ nl
  +:+ "<colors>" +:+ nl
  +:+ String.concat "" (color_line <$> sorted_colors)
  +:+ "</colors>" +:+ nl.

(** [save_colors_xml(colors)] *)
Definition save_colors_xml (colors : gmap string string) : io unit :=
  emit (Print (Generating COLORS_OUTPUT));;
  sorted_colors ← lift (sorted_colors colors);
  emit (WriteFile COLORS_OUTPUT (xml_content sorted_colors));;
  emit (Print (Generated COLORS_OUTPUT (size colors))).

Definition sorted_styles (text_styles : list style_def) : result (list style_def) :=
  sorted sort_key_lt text_styles.

Section renderer.
(** The scripts differ in the package imported, and the by-id script
    adds the list of fallback fonts and a line to each style. *)
Variable package : string.
Variable fallback_fonts : option (list string).

Definition dart_header : string :=
  "import 'package:flutter/material.dart';" +:+ nl
  +:+ "import 'package:flutter_screenutil/flutter_screenutil.dart';" +:+ nl
  +:+ "import 'package:" +:+ package +:+ "/gen/colors.gen.dart';" +:+ nl
  +:+ nl
  +:+ "class TextFontStyle {" +:+ nl
  +:+ "  TextFontStyle._();" +:+ nl
  +:+ nl
  +:+ match fallback_fonts with
      | Some fonts =>
          "  // Fallback Fonts" +:+ nl
          +:+ "  static const fallbackFonts = [" +:+ nl
          +:+ String.concat "" ((λ font, "    '" +:+ font +:+ "'," +:+ nl) <$> fonts)
          +:+ "  ];" +:+ nl
          +:+ nl
      | None => ""
      end.

Definition style_block (style : style_def) : result string :=
  font_family ← py_str (fontFamily style);
  let color_name := "c" +:+ color style in
  weight ← py_str (fontWeight style);
  Ok ("  static final " +:+ name style +:+ " = TextStyle(" +:+ nl
      +:+ "    fontFamily: " +:+ dq +:+ font_family +:+ dq +:+ "," +:+ nl
      +:+ match fallback_fonts with
          | Some _ => "    fontFamilyFallback: fallbackFonts," +:+ nl
          | None => ""
          end
      +:+ "    color: AppColors." +:+ color_name +:+ "," +:+ nl
      +:+ "    fontSize: " +:+ str_int (fontSize style) +:+ ".sp," +:+ nl
      +:+ "    fontWeight: FontWeight.w" +:+ weight +:+ "," +:+ nl
      +:+ "  );" +:+ nl
      +:+ nl).

Definition dart_content (sorted_styles : list style_def) : result string :=
  blocks ← mapM style_block sorted_styles;
  Ok (dart_header +:+ String.concat "" blocks +:+ "}" +:+ nl).

(** [save_text_styles_dart(text_styles)] *)
Definition save_text_styles_dart (text_styles : list style_def) : io unit :=
  emit (Print (Generating TEXTSTYLES_OUTPUT));;
  sorted_styles ← lift (sorted_styles text_styles);
  content ← lift (dart_content sorted_styles);
  emit (WriteFile TEXTSTYLES_OUTPUT content);;
  emit (Print (Generated TEXTSTYLES_OUTPUT (length text_styles))).
End renderer.

(** ** The drivers *)

(** What [requests.get] hands back. [json] is what [response.json()]
    returns or raises. *)
Record response := Response {
  status_code : Z;
  text : string;
  json : result value;
}.

(** [main.py] *)
Module Main.
(** [f"text{fontSize}c{color}w{fontWeight}{fontName}"] *)
Definition style_name (fontSize : Z) (color fontWeight fontName : string) : string :=
  "text" +:+ str_int fontSize +:+ "c" +:+ color +:+ "w" +:+ fontWeight +:+ fontName.

Definition parse_node : value → state → result state := parse_node style_name.

Definition save_text_styles_dart : list style_def → io unit :=
  save_text_styles_dart "screnzo85_app" None.

(** [process_figma_file()], given what [requests.get] does *)
Definition process_figma_file (http_get : result response) : io unit :=
  emit (Print Fetching);;
  response ← lift http_get;
  if negb (status_code response =? 200) then
    emit (Print (FetchFailed (text response)))
  else
    figma_data ← lift (json response);
    emit (Print Fetched);;
    document ← lift (getitem figma_data "document");
    st ← lift (parse_node document init);
    save_colors_xml (colors st);;
    save_text_styles_dart (text_styles st).
End Main.

(** [import_colors_and_text_font_styles_by_id.py] *)
Module ById.
(** [f"textStyle{fontSize}c{color}{fontName}{fontWeight}"] *)
Definition style_name (fontSize : Z) (color fontWeight fontName : string) : string :=
  "textStyle" +:+ str_int fontSize +:+ "c" +:+ color +:+ fontName +:+ fontWeight.

Definition parse_node : value → state → result state := parse_node style_name.

Definition save_text_styles_dart : list style_def → io unit :=
  save_text_styles_dart "your_app_name" (Some FALLBACK_FONTS).

(** The bindings of a dict, for [len], [.keys()] and [.values()] *)
Definition dict_items (v : value) : result (list (string * value)) :=
  match v with
  | VDict d => Ok d
  | _ => Raise AttributeError
  end.

(** From [root_node = target_node_data.get("document")] on *)
Definition process_target (NODE_ID : string) (target_node_data : value) : io unit :=
  root_node ← lift (get_or target_node_data "document" VNone);
  if negb (truthy root_node) then
    emit (Print (DocumentNotFound NODE_ID))
  else
    st ← lift (parse_node root_node init);
    save_colors_xml (colors st);;
    save_text_styles_dart (text_styles st).

(** [process_figma_file()], given [NODE_ID] and what [requests.get] does *)
Definition process_figma_file (NODE_ID : string) (http_get : result response) : io unit :=
  emit (Print Fetching);;
  response ← lift http_get;
  if negb (status_code response =? 200) then
    emit (Print (FetchFailed (text response)))
  else
    figma_data ← lift (json response);
    emit (Print Fetched);;
    nodes_map ← lift (get_or figma_data "nodes" (VDict []));
    target_node_data ← lift (get_or nodes_map NODE_ID VNone);
    if negb (truthy target_node_data) then
      items ← lift (dict_items nodes_map);
      match items with
      | [(key, target_node_data)] =>
          (* [len(nodes_map) == 1] *)
          emit (Print (UsedSingleNode key));;
          process_target NODE_ID target_node_data
      | _ =>
          emit (Print (NodeNotFound NODE_ID (fst <$> items)))
      end
    else process_target NODE_ID target_node_data.
End ById.

(** ** Definitions used to state the properties *)

Definition is_upper_hex (c : ascii) : bool :=
  let n := nat_of_ascii c in
  ((48 <=? n) && (n <=? 57) || (65 <=? n) && (n <=? 70))%nat.

(** Reading a string of upper-case hexadecimal digits back, most
    significant digit first. *)
Definition decode_hex (s : string) : option Z :=
  foldl (λ acc c,
           acc ← acc;
           let n := Z.of_nat (nat_of_ascii c) in
           if (48 <=? n) && (n <=? 57) then Some (16 * acc + (n - 48))
           else if (65 <=? n) && (n <=? 70) then Some (16 * acc + (n - 55))
           else None)
        (Some 0) (String.list_ascii_of_string s).

Definition byte_formatted (n : Z) : bool :=
  match format_02X n with
  | String a (String b EmptyString) =>
      is_upper_hex a && is_upper_hex b
      && bool_decide (decode_hex (format_02X n) = Some n)
  | _ => false
  end.


(** [r] is a value or an exception: the run stays inside the embedding. *)
Definition modelled {A} (r : result A) : Prop := r ≠ Unmodelled.

(** Trees of the scenarios. *)
Definition solid (r g b : value) : value :=
  VDict [("type", VStr "SOLID"); ("color", VDict [("r", r); ("g", g); ("b", b)])].

Definition scenario_tree : value :=
  VDict [("document", VDict [("children", VList [
    VDict [("type", VStr "RECTANGLE"); ("fills", VList [solid (VInt 1) (VInt 0) (VInt 0)])];
    VDict [("type", VStr "TEXT");
           ("style", VDict [("fontFamily", VStr "Roboto"); ("fontWeight", VInt 700);
                            ("fontSize", VInt 16)]);
           ("fills", VList [solid (VInt 0) (VInt 0) (VInt 0)])]])])].

Definition bare_text : value := VDict [("type", VStr "TEXT")].

(** *** What a walk collects, apart from the state it threads *)

(** The hex code [add_fill] inserts for [fill], if any. *)
Definition fill_hex (fill : value) : result (option string) :=
  ty ← getitem fill "type";
  if eq_str ty "SOLID" then
    color ← getitem fill "color";
    r ← getitem color "r";
    g ← getitem color "g";
    b ← getitem color "b";
    hex_code ← rgb_to_hex r g b;
    Ok (Some hex_code)
  else Ok None.

(** The hex codes of the solid fills of [node], in order. *)
Definition node_hexes (node : value) : result (list string) :=
  has_fills ← contains "fills" node;
  if has_fills : bool then
    fills ← getitem node "fills";
    items ← iterate fills;
    hexes ← mapM fill_hex items;
    Ok (omap id hexes)
  else Ok [].

(** Entering the colours of [hexes] into a mapping. *)
Definition paint (hexes : list string) (colors : gmap string string) : gmap string string :=
  foldl (λ colors h, <["c" +:+ h := "#" +:+ h]> colors) colors hexes.

(** The uniqueness key and the [style_def] of [node], when it is a TEXT
    node. *)
Definition text_entry (style_name : Z → string → string → string → string)
    (node : value) : result (option (string * style_def)) :=
  ty ← get_or node "type" VNone;
  if eq_str ty "TEXT" then
    '(fontFamily, fontWeight, fontSize, color) ← parse_text_style node;
    fontName ← re_sub_non_word fontFamily;
    weight ← py_str fontWeight;
    Ok (Some (style_key fontSize color weight fontName,
              StyleDef (style_name fontSize color weight fontName)
                       fontFamily color fontSize fontWeight))
  else Ok None.

(** Appending an entry unless its key has been seen. *)
Definition add_entry (entry : option (string * style_def)) (st : state) : state :=
  match entry with
  | Some (key, style_def) =>
      if bool_decide (key ∈ unique_styles st) then st
      else State (colors st) (text_styles st ++ [style_def]) ({[key]} ∪ unique_styles st)
  | None => st
  end.

(** What one node contributes, and its effect on a state. *)
Definition node_summary (style_name : Z → string → string → string → string)
    (node : value) : result (list string * option (string * style_def)) :=
  hexes ← node_hexes node;
  entry ← text_entry style_name node;
  Ok (hexes, entry).

Definition apply_summary (s : list string * option (string * style_def)) (st : state) : state :=
  add_entry s.2 (State (paint s.1 (colors st)) (text_styles st) (unique_styles st)).

(** The state after the contributions [ss], from first to last. *)
Definition run (ss : list (list string * option (string * style_def))) (st : state) : state :=
  foldl (λ st s, apply_summary s st) st ss.

(** The contributions of the nodes of a tree, in the order [parse_node]
    visits them. *)
Fixpoint tree_summary (style_name : Z → string → string → string → string)
    (node : value) {struct node} : result (list (list string * option (string * style_def))) :=
  match node with
  | VDict d =>
      s ← node_summary style_name node;
      dict_case "children" d (Ok [s]) (λ children,
        match children with
        | VList l => ss ← mapM (tree_summary style_name) l; Ok (s :: concat ss)
        | _ => items ← iterate children; ss ← mapM (node_summary style_name) items; Ok (s :: ss)
        end)
  | _ => s ← node_summary style_name node; Ok [s]
  end.

(** The nodes of a tree in pre-order: a node, then the subtrees of its
    children from first to last. *)
Fixpoint preorder (node : value) : list value :=
  node ::
  match node with
  | VDict d =>
      dict_case "children" d [] (λ children,
        match children with
        | VList l => concat (preorder <$> l)
        | _ => match iterate children with Ok items => items | _ => [] end
        end)
  | _ => []
  end.

(** The entries of a list whose key occurs for the first time. *)
Fixpoint keep_first {A} (seen : gset string) (entries : list (string * A)) : list (string * A) :=
  match entries with
  | [] => []
  | (k, x) :: entries' =>
      if bool_decide (k ∈ seen) then keep_first seen entries'
      else (k, x) :: keep_first ({[k]} ∪ seen) entries'
  end.

(** [reordered t t']: [t'] is [t] with the lists of children permuted, at
    any number of nodes. *)
Inductive reordered : value → value → Prop :=
| reordered_same v : reordered v v
| reordered_children d1 d2 l l' l'' :
    dict_get "children" d1 = None →
    Forall2 reordered l l' →
    l' ≡ₚ l'' →
    reordered (VDict (d1 ++ ("children", VList l) :: d2))
              (VDict (d1 ++ ("children", VList l'') :: d2)).

(** *** Characters of the generated names *)

Definition chars (s : string) : list ascii := String.list_ascii_of_string s.



Definition is_sign_or_hex (c : ascii) : bool := is_upper_hex c || Ascii.eqb c "-".



(** *** Entries of a tree *)

(** The keys and [style_def]s of the TEXT nodes of a tree, in pre-order. *)
Definition entries (style_name : Z → string → string → string → string)
    (root : value) : list (string * style_def) :=
  omap (λ node, match text_entry style_name node with
                | Ok entry => entry
                | _ => None
                end) (preorder root).



(** Every TEXT node of the tree has an integer font weight. *)
Definition int_weights (style_name : Z → string → string → string → string)
    (root : value) : Prop :=
  ∀ k sd, (k, sd) ∈ entries style_name root → ∃ z, fontWeight sd = VInt z.



(** Trees of the scenarios on names and duplicates. *)
Definition text_node (family : string) (weight size : Z) : value :=
  VDict [("type", VStr "TEXT");
         ("style", VDict [("fontFamily", VStr family); ("fontWeight", VInt weight);
                          ("fontSize", VInt size)])].

Definition frame (children : list value) : value :=
  VDict [("type", VStr "FRAME"); ("children", VList children)].

Definition twin_tree : value :=
  frame [text_node "Roboto" 400 16; frame [text_node "Roboto" 400 16]].






Definition swapped_siblings : value * value :=
  (frame [VDict [("fills", VList [solid (VInt 1) (VInt 0) (VInt 0)])];
          VDict [("fills", VList [solid (VInt 0) (VInt 0) (VInt 1)])]],
   frame [VDict [("fills", VList [solid (VInt 0) (VInt 0) (VInt 1)])];
          VDict [("fills", VList [solid (VInt 1) (VInt 0) (VInt 0)])]]).

(** *** Sorting with a comparison that cannot raise *)

Fixpoint insert_pure {A} (ltb : A → A → bool) (x : A) (l : list A) : list A :=
  match l with
  | [] => [x]
  | y :: l' => if ltb y x then y :: insert_pure ltb x l' else x :: l
  end.

Definition stable_sort {A} (ltb : A → A → bool) (l : list A) : list A :=
  foldr (insert_pure ltb) [] l.


Definition item_ltb (a b : string * string) : bool :=
  if negb (String.eqb a.1 b.1) then str_ltb a.1 b.1 else str_ltb a.2 b.2.

(** The font weight of an entry whose weight is an integer. *)
Definition int_weight (sd : style_def) : Z :=
  match fontWeight sd with
  | VInt z => z
  | _ => 0
  end.


Definition composite_ltb (a b : style_def) : bool :=
  if negb (fontSize a =? fontSize b) then fontSize a <? fontSize b
  else if negb (String.eqb (color a) (color b)) then str_ltb (color a) (color b)
  else int_weight a <? int_weight b.



(** ** The entry points of the two generators *)

(** What the [__main__] blocks print around the run. *)
Inductive console :=
| Banner (title : string)
| ConfigWarning
| AllDone (files : list string).

(** The console and the run, interleaved as they happen. *)
Record script_run := ScriptRun {
  script_trace : list (console + event);
  script_outcome : result unit;
}.

(** A banner, the run, and the closing lines when the run has returned.
    [os.makedirs('.', exist_ok=True)], which the blocks call for the two
    relative output paths, leaves the working directory as it is. *)
Definition script (opening : list console) (m : io unit) : script_run :=
  ScriptRun
    ((inl <$> opening) ++ (inr <$> trace m)
     ++ match outcome m with
        | Ok _ => [inl (AllDone [COLORS_OUTPUT; TEXTSTYLES_OUTPUT])]
        | _ => []
        end)
    (outcome m).

(** The [__main__] block of [main.py] *)
Definition main_py (http_get : result response) : script_run :=
  script [Banner "Figma Color & TextStyle Generator"] (Main.process_figma_file http_get).

(** The [__main__] block of the by-id script: a warning when a setting
    still holds its placeholder. *)
Definition by_id_py (FIGMA_TOKEN FILE_KEY NODE_ID : string)
    (http_get : result response) : script_run :=
  script
    (Banner "Figma Color & TextStyle Generator (By Node ID)"
     :: if substringb "figma_token" FIGMA_TOKEN || substringb "file_key" FILE_KEY
           || substringb "node_id" NODE_ID
        then [ConfigWarning] else [])
    (ById.process_figma_file NODE_ID http_get).

(** ** [figma_to_json_by_id.py] *)

Module ToJson.
(** [s.replace(old, new)] for single characters *)
Fixpoint replace (old new : ascii) (s : string) : string :=
  match s with
  | EmptyString => EmptyString
  | String c s' => String (if Ascii.eqb c old then new else c) (replace old new s')
  end.

(** [NODE_ID.replace(':', '_').replace('-', '_')] *)
Definition safe_node_id (NODE_ID : string) : string :=
  replace "-" "_" (replace ":" "_" NODE_ID).

(** [os.path.join(output_dir, f"{safe_node_id}.json")] with
    [output_dir = "json"] *)
Definition file_path (NODE_ID : string) : string :=
  "json/" +:+ safe_node_id NODE_ID +:+ ".json".






End ToJson.

(** ** More definitions used to state properties *)

(** A fill that [add_fill] accepts. *)
Definition fill_accepted (fill : value) : Prop :=
  ∀ colors, ∃ colors', add_fill fill colors = Ok colors'.

(** A fill tagged "SOLID", and one with another tag. *)
Definition is_solid (fill : value) : Prop :=
  ∃ ty, getitem fill "type" = Ok ty ∧ eq_str ty "SOLID" = true.



(** The tree of a run in which the weights of two styles of one size and
    colour cannot be compared. *)
Definition mixed_weights_tree : value :=
  VDict [("document", frame [
    VDict [("type", VStr "TEXT"); ("fills", VList [solid (VInt 1) (VInt 0) (VInt 0)]);
           ("style", VDict [("fontFamily", VStr "Roboto"); ("fontWeight", VInt 400)])];
    VDict [("type", VStr "TEXT"); ("fills", VList [solid (VInt 1) (VInt 0) (VInt 0)]);
           ("style", VDict [("fontFamily", VStr "Roboto"); ("fontWeight", VStr "bold")])]])].

(** The characters [ToJson.safe_node_id] makes the same, and identifiers
    that agree except for which of them stands where. *)
Definition is_separator (c : ascii) : bool :=
  Ascii.eqb c ":" || Ascii.eqb c "-" || Ascii.eqb c "_".

Definition alike (a b : string) : Prop :=
  Forall2 (λ x y, x = y ∨ is_separator x = true ∧ is_separator y = true) (chars a) (chars b).

(** * Properties *)

(** ** Colour conversion *)

Example rgb_to_hex_int : rgb_to_hex (VInt 1) (VInt 0) (VFloat (1 # 2)) = Ok "FF0080".
Proof. reflexivity. Qed.
Example rgb_to_hex_out_of_range : rgb_to_hex (VInt 2) (VInt (-1)) (VFloat 0) = Ok "1FE-FF00".
Proof. reflexivity. Qed.
Example int_of_str_ex :
  int_of_str " 1_6 " = Some 16 ∧ int_of_str "-007" = Some (-7) ∧ int_of_str "16.0" = None
  ∧ int_of_str "1__6" = None ∧ int_of_str "" = None.
Proof. repeat split; reflexivity. Qed.




Lemma format_02X_byte (n : Z) :
  0 ≤ n ≤ 255 →
  ∃ a b, format_02X n = String a (String b EmptyString)
         ∧ is_upper_hex a = true ∧ is_upper_hex b = true
         ∧ decode_hex (String a (String b EmptyString)) = Some n.
Proof.
  intros Hn.
  assert (forallb byte_formatted (Z.of_nat <$> seq 0 256) = true) as Hall
    by (vm_compute; reflexivity).
  rewrite forallb_forall in Hall.
  assert (In n (Z.of_nat <$> seq 0 256)) as Hin.
  { apply list_elem_of_In, list_elem_of_fmap. exists (Z.to_nat n).
    split; [lia|]. apply list_elem_of_In, in_seq. lia. }
  apply Hall in Hin. unfold byte_formatted in Hin.
  destruct (format_02X n) as [|a [|b [|]]]; try discriminate.
  rewrite !andb_true_iff, bool_decide_eq_true in Hin.
  destruct Hin as [[Ha Hb] Hd]. by exists a, b.
Qed.



(** ** The end-to-end scenario *)

(** C1. On the synthetic tree the walker collects the colours cFF0000 and
    c000000 with their "#" values, and one text style: Roboto, weight 700,
    size 16, colour "000000". *)
Theorem scenario_end_to_end :
  ∃ st,
    (document ← getitem scenario_tree "document"; Main.parse_node document init) = Ok st
    ∧ colors st = {[ "cFF0000" := "#FF0000"; "c000000" := "#000000" ]}
    ∧ ∃ style, text_styles st = [style]
        ∧ fontFamily style = VStr "Roboto" ∧ fontWeight style = VInt 700
        ∧ fontSize style = 16 ∧ color style = "000000".
Proof.
  eexists. split; [vm_compute; reflexivity|].
  split; [by vm_compute|].
  eexists. by repeat split.
Qed.

(** ** Text-style extraction *)

Lemma modelled_bind {A B} (m : result A) (f : A → result B) :
  modelled m → (∀ a, modelled (f a)) → modelled (m ≫= f).
Proof. destruct m; simpl; [auto|done|done]. Qed.

Lemma modelled_getitem v k : modelled (getitem v k).
Proof. destruct v; try done. simpl. by destruct (dict_get k d). Qed.

Lemma modelled_get_or v k dflt : modelled (get_or v k dflt).
Proof. by destruct v. Qed.

Lemma modelled_py_int v : modelled (py_int v).
Proof. destruct v; try done. simpl. by destruct (int_of_str s). Qed.

Lemma modelled_iterate v : modelled (iterate v).
Proof. by destruct v. Qed.

Lemma modelled_round_times v k : modelled (round_times v k).
Proof. by destruct v. Qed.

Lemma modelled_rgba_to_hex rgba : modelled (rgba_to_hex rgba).
Proof.
  unfold rgba_to_hex.
  repeat (apply modelled_bind; [apply modelled_getitem || apply modelled_round_times|intros ?]).
  done.
Qed.

Lemma modelled_first_solid fills : modelled (first_solid fills).
Proof.
  induction fills as [|f fills IH]; [done|]. simpl.
  apply modelled_bind; [apply modelled_getitem|]. intros ty. by destruct (eq_str ty "SOLID").
Qed.

Lemma modelled_parse_text_style_try node : modelled (parse_text_style_try node).
Proof.
  unfold parse_text_style_try.
  apply modelled_bind; [apply modelled_getitem|intros style].
  apply modelled_bind; [apply modelled_get_or|intros family].
  apply modelled_bind; [apply modelled_get_or|intros weight].
  apply modelled_bind; [apply modelled_get_or|intros size].
  apply modelled_bind; [apply modelled_py_int|intros n].
  apply modelled_bind; [apply modelled_get_or|intros fills].
  apply modelled_bind; [|done].
  destruct (truthy fills); [|done].
  apply modelled_bind; [apply modelled_iterate|intros items].
  apply modelled_bind; [apply modelled_first_solid|intros fill].
  destruct (truthy fill); [|done].
  apply modelled_bind; [apply modelled_getitem|intros rgba].
  apply modelled_rgba_to_hex.
Qed.

(** C5. [parse_text_style] returns a 4-tuple on every node; whenever a
    read inside its [try] raises, the tuple is the whole fallback
    ("FontNotFound", 400, 14, "000000"), as for any node without a [style]
    field, and for a node whose font family can be read but whose font
    size cannot; a TEXT node with neither [style] nor [fills] gives that
    tuple and one entry in the output list. *)
Theorem parse_text_style_never_raises :
  (∀ node, ∃ tuple, parse_text_style node = Ok tuple)
  ∧ (∀ node e, parse_text_style_try node = Raise e →
       parse_text_style node = Ok fallback_style)
  ∧ (∀ d, dict_get "style" d = None → parse_text_style (VDict d) = Ok fallback_style)
  ∧ parse_text_style bare_text = Ok fallback_style
  ∧ parse_text_style
      (VDict [("style", VDict [("fontFamily", VStr "Roboto"); ("fontSize", VStr "large")])])
    = Ok fallback_style
  ∧ Main.parse_node bare_text init
    = Ok (State ∅ [StyleDef "text14c000000w400FontNotFound" (VStr "FontNotFound")
                            "000000" 14 (VInt 400)]
                {["14_000000_400_FontNotFound"]})
  ∧ ById.parse_node bare_text init
    = Ok (State ∅ [StyleDef "textStyle14c000000FontNotFound400" (VStr "FontNotFound")
                            "000000" 14 (VInt 400)]
                {["14_000000_400_FontNotFound"]}).
Proof.
  split; [|split; [|split; [|split; [|split; [|split]]]]].
  - intros node. unfold parse_text_style.
    pose proof (modelled_parse_text_style_try node) as Hm.
    destruct (parse_text_style_try node) as [tuple|e|]; [by exists tuple| |done].
    by exists fallback_style.
  - intros node e He. unfold parse_text_style. by rewrite He.
  - intros d Hd. unfold parse_text_style, parse_text_style_try. simpl. by rewrite Hd.
  - reflexivity.
  - reflexivity.
  - by vm_compute.
  - by vm_compute.
Qed.

Lemma parse_text_style_never_raises_witness :
  parse_text_style (VDict [("fills", VInt 3)]) = Ok fallback_style.
Proof.
  apply (proj1 (proj2 parse_text_style_never_raises) (VDict [("fills", VInt 3)]) KeyError).
  reflexivity.
Defined.

(** ** The drivers *)


Lemma dict_get_cons {V} k k' (v : V) d :
  dict_get k ((k', v) :: d) = if String.eqb k k' then Some v else dict_get k d.
Proof. reflexivity. Qed.

Lemma dict_get_elem_of {V} k (v : V) d : dict_get k d = Some v → (k, v) ∈ d.
Proof.
  induction d as [|[k' v'] d IH]; [done|].
  rewrite dict_get_cons. destruct (String.eqb_spec k k') as [->|Hne].
  - intros [= ->]. left.
  - intros H. right. by apply IH.
Qed.

Lemma dict_case_get {V R} k (d : list (string * V)) (none : R) (some : V → R) :
  dict_case k d none some = from_option some none (dict_get k d).
Proof.
  induction d as [|[k' v'] d IH]; [done|].
  rewrite dict_get_cons. simpl. by destruct (String.eqb k k').
Qed.

Section node_lookup.
Context (NODE_ID : string) (r : response) (figma_data : value)
        (nodes_map : list (string * value)).
Hypothesis Hstatus : status_code r = 200.
Hypothesis Hjson : json r = Ok figma_data.
Hypothesis Hnodes : get_or figma_data "nodes" (VDict []) = Ok (VDict nodes_map).

(** The run up to the lookup of the target. *)
Lemma process_figma_file_lookup :
  ById.process_figma_file NODE_ID (Ok r)
  = (emit (Print Fetching);; emit (Print Fetched);;
     let target_node_data := default VNone (dict_get NODE_ID nodes_map) in
     if negb (truthy target_node_data) then
       match nodes_map with
       | [(key, target_node_data)] =>
           emit (Print (UsedSingleNode key));;
           ById.process_target NODE_ID target_node_data
       | _ => emit (Print (NodeNotFound NODE_ID nodes_map.*1))
       end
     else ById.process_target NODE_ID target_node_data).
Proof.
  unfold ById.process_figma_file, mbind, io_bind. simpl.
  rewrite Hstatus, Hjson. simpl. rewrite Hnodes. simpl.
  destruct (negb (truthy (default VNone (dict_get NODE_ID nodes_map)))); [|done].
  by destruct nodes_map as [|[k1 v1] [|[k2 v2] rest]].
Qed.

Lemma process_figma_file_single key target :
  dict_get NODE_ID nodes_map = None → nodes_map = [(key, target)] →
  trace (ById.process_figma_file NODE_ID (Ok r))
  = [Print Fetching; Print Fetched; Print (UsedSingleNode key)]
    ++ trace (ById.process_target NODE_ID target)
  ∧ outcome (ById.process_figma_file NODE_ID (Ok r))
    = outcome (ById.process_target NODE_ID target).
Proof.
  intros Hkey Hmap. rewrite process_figma_file_lookup, Hkey, Hmap. simpl.
  by destruct (outcome (ById.process_target NODE_ID target)).
Qed.

Lemma process_figma_file_unresolved :
  dict_get NODE_ID nodes_map = None → length nodes_map ≠ 1%nat →
  ById.process_figma_file NODE_ID (Ok r)
  = IO [Print Fetching; Print Fetched; Print (NodeNotFound NODE_ID nodes_map.*1)] (Ok tt).
Proof.
  intros Hkey Hlen. rewrite process_figma_file_lookup, Hkey.
  by destruct nodes_map as [|[k1 v1] [|[k2 v2] rest]].
Qed.

End node_lookup.

(** C6. A node-scoped response whose [nodes] mapping has no key equal to
    the requested identifier: a mapping of exactly one entry makes that
    entry the target; any other mapping ends the run with the message that
    the node was not found, listing every key, and nothing is walked or
    written. *)
Theorem node_lookup_fallback (NODE_ID : string) (r : response)
    (figma_data : value) (nodes_map : list (string * value)) :
  status_code r = 200 →
  json r = Ok figma_data →
  get_or figma_data "nodes" (VDict []) = Ok (VDict nodes_map) →
  dict_get NODE_ID nodes_map = None →
  (∀ key target, nodes_map = [(key, target)] →
     trace (ById.process_figma_file NODE_ID (Ok r))
     = [Print Fetching; Print Fetched; Print (UsedSingleNode key)]
       ++ trace (ById.process_target NODE_ID target)
     ∧ outcome (ById.process_figma_file NODE_ID (Ok r))
       = outcome (ById.process_target NODE_ID target))
  ∧ (length nodes_map ≠ 1%nat →
     ById.process_figma_file NODE_ID (Ok r)
     = IO [Print Fetching; Print Fetched; Print (NodeNotFound NODE_ID nodes_map.*1)] (Ok tt)).
Proof.
  intros Hstatus Hjson Hnodes Hkey. split.
  - intros key target. by apply process_figma_file_single with figma_data.
  - by apply process_figma_file_unresolved with figma_data.
Qed.

Lemma node_lookup_fallback_witness :
  ById.process_figma_file "1:2"
    (Ok (Response 200 "" (Ok (VDict [("nodes", VDict [("1-2", VNone); ("3-4", VNone)])]))))
  = IO [Print Fetching; Print Fetched; Print (NodeNotFound "1:2" ["1-2"; "3-4"])] (Ok tt).
Proof.
  apply (node_lookup_fallback "1:2"
           (Response 200 "" (Ok (VDict [("nodes", VDict [("1-2", VNone); ("3-4", VNone)])])))
           (VDict [("nodes", VDict [("1-2", VNone); ("3-4", VNone)])])
           [("1-2", VNone); ("3-4", VNone)]);
    (reflexivity || discriminate).
Defined.



(** ** The walker: what a run collects *)

(** Induction along the [children] lists the walker recurses into. *)
Lemma value_children_ind (P : value → Prop) :
  (∀ v, (∀ d l, v = VDict d → dict_get "children" d = Some (VList l) → Forall P l) → P v) →
  ∀ v, P v.
Proof.
  intros step v.
  cut (P v ∧ ∀ l, v = VList l → Forall P l); [tauto|].
  induction v as [| | | | |l IH|d IH] using value_nested_ind;
    (split; [apply step; try done|try done]).
  - intros l' [= <-]. eapply Forall_impl; [exact IH|]. by intros x [Hx _].
  - intros d' l [= <-] Hget. apply dict_get_elem_of in Hget.
    rewrite Forall_forall in IH. by apply (IH _ Hget).
Qed.

Lemma bind_Ok {A B} (m : result A) (f : A → result B) b :
  m ≫= f = Ok b ↔ ∃ a, m = Ok a ∧ f a = Ok b.
Proof.
  destruct m as [a| |]; simpl.
  - split; [by exists a|]. by intros (a' & [= <-] & H).
  - split; [done|]. by intros (a' & [=] & _).
  - split; [done|]. by intros (a' & [=] & _).
Qed.

Lemma mapM_cons {A B} (f : A → result B) x l :
  mapM f (x :: l) = y ← f x; k ← mapM f l; Ok (y :: k).
Proof. reflexivity. Qed.

Lemma add_fill_hex fill m :
  add_fill fill m
  = h ← fill_hex fill; Ok (from_option (λ h, <["c" +:+ h := "#" +:+ h]> m) m h).
Proof.
  unfold add_fill, fill_hex.
  destruct (getitem fill "type") as [ty| |]; [simpl|done..].
  destruct (eq_str ty "SOLID"); [|done].
  destruct (getitem fill "color") as [c| |]; [simpl|done..].
  destruct (getitem c "r") as [r| |]; [simpl|done..].
  destruct (getitem c "g") as [g| |]; [simpl|done..].
  destruct (getitem c "b") as [b| |]; [simpl|done..].
  by destruct (rgb_to_hex r g b).
Qed.

Lemma for_each_add_fill items m :
  for_each add_fill items m = hexes ← mapM fill_hex items; Ok (paint (omap id hexes) m).
Proof.
  revert m. induction items as [|fill items IH]; intros m; [done|].
  rewrite mapM_cons. simpl. rewrite add_fill_hex.
  destruct (fill_hex fill) as [h| |]; [simpl|done..].
  rewrite IH. destruct (mapM fill_hex items) as [hs| |]; [simpl|done..].
  by destruct h.
Qed.

Lemma extract_colors_hexes node m :
  extract_colors node m = hexes ← node_hexes node; Ok (paint hexes m).
Proof.
  unfold extract_colors, node_hexes.
  destruct (contains "fills" node) as [[]| |]; [simpl|done..].
  destruct (getitem node "fills") as [fills| |]; [simpl|done..].
  destruct (iterate fills) as [items| |]; [simpl|done..].
  rewrite for_each_add_fill. by destruct (mapM fill_hex items).
Qed.

Section walker_facts.
Variable style_name : Z → string → string → string → string.

(** Only a dict gets past [visit]. *)
Lemma visit_not_dict node st :
  (∀ d, node ≠ VDict d) → ∃ e, visit style_name node st = Raise e.
Proof.
  intros Hnode. unfold visit, extract_colors, extract_text_style.
  destruct node as [| | | |s|l|d]; simpl; try by eexists.
  - destruct (substringb "fills" s); by eexists.
  - destruct (existsb _ l); by eexists.
  - by destruct (Hnode d).
Qed.

Lemma extract_text_style_entry node st :
  extract_text_style style_name node st
  = entry ← text_entry style_name node; Ok (add_entry entry st).
Proof.
  unfold extract_text_style, text_entry.
  destruct (get_or node "type" VNone) as [ty| |]; [simpl|done..].
  destruct (eq_str ty "TEXT"); [|done].
  destruct (parse_text_style node) as [[[[ff fw] fs] c]| |]; [simpl|done..].
  destruct (re_sub_non_word ff) as [fn| |]; [simpl|done..].
  destruct (py_str fw) as [w| |]; [simpl|done..].
  by destruct (bool_decide _).
Qed.

Lemma visit_summary node st :
  visit style_name node st = s ← node_summary style_name node; Ok (apply_summary s st).
Proof.
  unfold visit, node_summary. rewrite extract_colors_hexes.
  destruct (node_hexes node) as [hs| |]; [simpl|done..].
  rewrite extract_text_style_entry.
  by destruct (text_entry style_name node).
Qed.

Lemma for_each_visit items st :
  for_each (visit style_name) items st
  = ss ← mapM (node_summary style_name) items; Ok (run ss st).
Proof.
  revert st. induction items as [|x items IH]; intros st; [done|].
  rewrite mapM_cons. simpl. rewrite visit_summary.
  destruct (node_summary style_name x) as [s| |]; [simpl|done..].
  rewrite IH. by destruct (mapM _ items).
Qed.

Lemma for_each_parse_node l st :
  Forall (λ v, ∀ st, parse_node style_name v st
                     = ss ← tree_summary style_name v; Ok (run ss st)) l →
  for_each (parse_node style_name) l st
  = ss ← mapM (tree_summary style_name) l; Ok (run (concat ss) st).
Proof.
  intros Hl. revert st. induction Hl as [|x l Hx Hl IH]; intros st; [done|].
  rewrite mapM_cons. simpl. rewrite Hx.
  destruct (tree_summary style_name x) as [s| |]; [simpl|done..].
  rewrite IH. destruct (mapM _ l) as [ss| |]; [simpl|done..].
  unfold run. by rewrite foldl_app.
Qed.

(** A run of the walker is the summaries of the nodes applied in order. *)
Lemma parse_node_summary node :
  ∀ st, parse_node style_name node st
        = ss ← tree_summary style_name node; Ok (run ss st).
Proof.
  induction node as [node IH] using value_children_ind. intros st.
  destruct node as [| | | | | |dict];
    try reflexivity;
    try (simpl; rewrite visit_summary; by destruct (node_summary _ _)).
  simpl. rewrite visit_summary.
  destruct (node_summary style_name (VDict dict)) as [s| |]; [simpl|done..].
  rewrite !dict_case_get.
  destruct (dict_get "children" dict) as [children|] eqn:Hc; [simpl|done].
  destruct children as [| | | | |l|d'];
    try (destruct (iterate _) as [items| |]; [simpl|done..];
         rewrite for_each_visit; by destruct (mapM _ items)).
  rewrite for_each_parse_node by (by eapply IH).
  by destruct (mapM _ l).
Qed.
End walker_facts.

Lemma mapM_Ok {A B} (f : A → result B) l k :
  mapM f l = Ok k ↔ Forall2 (λ x y, f x = Ok y) l k.
Proof.
  revert k. induction l as [|x l IH]; intros k.
  - split; [by intros [= <-]; constructor|]. by intros ->%Forall2_nil_inv_l.
  - rewrite mapM_cons. split.
    + intros (y & Hy & (k' & Hk' & [= <-])%bind_Ok)%bind_Ok.
      constructor; [done|]. by apply IH.
    + intros (y & k' & Hy & Hk' & ->)%Forall2_cons_inv_l.
      apply IH in Hk'. by rewrite Hy, Hk'.
Qed.

Lemma Forall2_concat_pointwise {A B} (R : A → B → Prop) ls ks :
  Forall2 (Forall2 R) ls ks → Forall2 R (concat ls) (concat ks).
Proof. induction 1; [constructor|]. simpl. by apply Forall2_app. Qed.

Section run_facts.
Variable style_name : Z → string → string → string → string.

(** The summaries of a run are those of the nodes in pre-order. *)
Lemma tree_summary_preorder node :
  ∀ ss, tree_summary style_name node = Ok ss →
        Forall2 (λ n s, node_summary style_name n = Ok s) (preorder node) ss.
Proof.
  induction node as [node IH] using value_children_ind. intros ss.
  destruct node as [| | | |str|items|dict]; simpl; try done;
    try (intros (s & Hs & [= <-])%bind_Ok; by repeat constructor).
  intros (s & Hs & Hrest)%bind_Ok. rewrite !dict_case_get in *.
  destruct (dict_get "children" dict) as [children|] eqn:Hc; simpl in *;
    [|injection Hrest as <-; by repeat constructor].
  destruct children as [| | | | |l|d']; simpl in *; try done.
  - apply bind_Ok in Hrest as (k & Hk%mapM_Ok & [= <-]). by constructor.
  - apply bind_Ok in Hrest as (sss & Hsss%mapM_Ok & [= <-]).
    constructor; [done|]. apply Forall2_concat_pointwise, Forall2_fmap_l.
    specialize (IH _ _ eq_refl Hc). clear Hc Hs.
    induction Hsss as [|c ss' l sss Hc Hsss IHl]; [constructor|].
    apply Forall_cons in IH as [IHc IH]. constructor; auto.
  - apply bind_Ok in Hrest as (k & Hk%mapM_Ok & [= <-]). by constructor.
Qed.

Lemma run_app ss1 ss2 st : run (ss1 ++ ss2) st = run ss2 (run ss1 st).
Proof. apply foldl_app. Qed.

Lemma colors_add_entry entry st : colors (add_entry entry st) = colors st.
Proof. destruct entry as [[k sd]|]; [|done]. simpl. by destruct (bool_decide _). Qed.

Lemma paint_app hs1 hs2 m : paint (hs1 ++ hs2) m = paint hs2 (paint hs1 m).
Proof. apply foldl_app. Qed.

(** The colours after a run: every collected code entered in turn. *)
Lemma colors_run ss st : colors (run ss st) = paint (concat ss.*1) (colors st).
Proof.
  revert st. induction ss as [|s ss IH]; intros st; [done|].
  simpl. rewrite IH, paint_app. unfold apply_summary. by rewrite colors_add_entry.
Qed.

(** The styles after a run: the entries whose key was not seen before. *)
Lemma text_styles_run ss st :
  text_styles (run ss st)
  = text_styles st ++ (keep_first (unique_styles st) (omap snd ss)).*2
  ∧ unique_styles (run ss st) = list_to_set (omap snd ss).*1 ∪ unique_styles st.
Proof.
  revert st. induction ss as [|[hs [[k sd]|]] ss IH]; intros st; simpl.
  - split; [by rewrite app_nil_r|set_solver].
  - destruct (IH (apply_summary (hs, Some (k, sd)) st)) as [-> ->].
    unfold apply_summary. simpl. destruct (bool_decide_reflect (k ∈ unique_styles st)).
    + simpl. split; [done|set_solver].
    + simpl. rewrite <- app_assoc. split; [done|set_solver].
  - by destruct (IH (apply_summary (hs, None) st)) as [-> ->].
Qed.
End run_facts.

Lemma keep_first_keys {A} seen (es : list (string * A)) :
  NoDup (keep_first seen es).*1
  ∧ ∀ k, k ∈ (keep_first seen es).*1 → (k ∉ seen) ∧ k ∈ (es.*1).
Proof.
  revert seen. induction es as [|[k x] es IH]; intros seen; simpl.
  - split; [constructor|]. by intros k ?%elem_of_nil.
  - destruct (bool_decide_reflect (k ∈ seen)) as [Hin|Hout].
    + destruct (IH seen) as [Hnd Hk]. split; [done|].
      intros k' [? ?]%Hk. split; [done|]. by right.
    + destruct (IH ({[k]} ∪ seen)) as [Hnd Hk]. simpl. split.
      * constructor; [|done]. intros [Hin _]%Hk. set_solver.
      * intros k' [->|[Hin ?]%Hk]%elem_of_cons; [split; [done|left]|].
        split; [set_solver|by right].
Qed.

(** A kept entry is the first of its key, and every key that was not seen
    before keeps its first entry. *)
Lemma keep_first_elem_of {A} seen (es : list (string * A)) k x :
  (k, x) ∈ keep_first seen es
  ↔ (k ∉ seen) ∧ ∃ l1 l2, es = l1 ++ (k, x) :: l2 ∧ k ∉ l1.*1.
Proof.
  revert seen. induction es as [|[k' x'] es IH]; intros seen; simpl.
  - split; [by intros ?%elem_of_nil|]. intros (_ & l1 & l2 & H & _).
    by destruct l1.
  - assert ((∃ l1 l2, (k', x') :: es = l1 ++ (k, x) :: l2 ∧ k ∉ l1.*1)
            ↔ ((k', x') = (k, x)
               ∨ k ≠ k' ∧ ∃ l1 l2, es = l1 ++ (k, x) :: l2 ∧ k ∉ l1.*1)) as Hsplit.
    { split.
      - intros ([|[k1 x1] l1] & l2 & Heq & Hk); simplify_eq/=; [by left|].
        right. split; [set_solver|]. exists l1, l2. split; [done|set_solver].
      - intros [[= -> ->]|(Hne & l1 & l2 & -> & Hk)];
          [exists [], es; split; [done|set_solver]|].
        exists ((k', x') :: l1), l2. split; [done|]. set_solver. }
    rewrite Hsplit. clear Hsplit.
    destruct (bool_decide_reflect (k' ∈ seen)) as [Hin|Hout].
    + rewrite IH. split; [intros [? ?]; split; [done|right; split; [set_solver|done]]|].
      intros [Hk [[= -> ->]|[_ ?]]]; [done|]. done.
    + rewrite elem_of_cons, IH. split.
      * intros [[= -> ->]|[Hk ?]]; [split; [done|by left]|].
        split; [set_solver|]. right. split; [set_solver|done].
      * intros [Hk [[= -> ->]|[Hne ?]]]; [by left|]. right. split; [set_solver|done].
Qed.

(** ** Strings: where one field of a name ends *)

Lemma chars_app a b : chars (a +:+ b) = chars a ++ chars b.
Proof. induction a as [|c a IH]; [done|]. simpl. by rewrite <- IH. Qed.

Lemma chars_inj a b : chars a = chars b → a = b.
Proof.
  intros H. rewrite <- (String.string_of_list_ascii_of_string a),
    <- (String.string_of_list_ascii_of_string b). unfold chars in H. by rewrite H.
Qed.






Lemma chars_upper_hex u : Forall (λ c, is_upper_hex c = true) (chars (upper_hex u)).
Proof. induction u; simpl; by constructor. Qed.

Lemma chars_format_02X z : Forall (λ c, is_sign_or_hex c = true) (chars (format_02X z)).
Proof.
  assert (Forall (λ c, is_sign_or_hex c = true)
            (chars (upper_hex (N.to_hex_uint (Z.abs_N z))))) as Hd.
  { eapply Forall_impl; [apply chars_upper_hex|].
    intros c Hc. unfold is_sign_or_hex. by rewrite Hc. }
  unfold format_02X. destruct (z <? 0); [by constructor|].
  destruct (_ <? 2)%nat; [by constructor|done].
Qed.

Lemma chars_rgba_to_hex rgba c :
  rgba_to_hex rgba = Ok c → Forall (λ c, is_sign_or_hex c = true) (chars c).
Proof.
  unfold rgba_to_hex.
  intros (r0 & _ & (r & _ & (g0 & _ & (g & _ & (b0 & _ & (b & _ & [= <-])
    %bind_Ok)%bind_Ok)%bind_Ok)%bind_Ok)%bind_Ok)%bind_Ok.
  rewrite !chars_app, !Forall_app. auto using chars_format_02X.
Qed.

Lemma chars_parse_text_style node ff fw fs c :
  parse_text_style node = Ok (ff, fw, fs, c) →
  Forall (λ c, is_sign_or_hex c = true) (chars c).
Proof.
  unfold parse_text_style.
  destruct (parse_text_style_try node) as [tuple| |] eqn:Htry; simpl;
    [|intros [= <- <- <- <-]; by repeat constructor|done].
  intros [= ->]. unfold parse_text_style_try in Htry.
  apply bind_Ok in Htry as (style & _ & Htry).
  apply bind_Ok in Htry as (family & _ & Htry).
  apply bind_Ok in Htry as (weight & _ & Htry).
  apply bind_Ok in Htry as (size & _ & Htry).
  apply bind_Ok in Htry as (n & _ & Htry).
  apply bind_Ok in Htry as (fills & _ & Htry).
  apply bind_Ok in Htry as (c' & Hc & [= _ _ _ ->]).
  destruct (truthy fills); [|injection Hc as <-; by repeat constructor].
  apply bind_Ok in Hc as (items & _ & Hc).
  apply bind_Ok in Hc as (fill & _ & Hc).
  destruct (truthy fill); [|injection Hc as <-; by repeat constructor].
  apply bind_Ok in Hc as (rgba & _ & Hc). by apply chars_rgba_to_hex in Hc.
Qed.

Lemma chars_drop_non_word s : Forall (λ c, is_word c = true) (chars (drop_non_word s)).
Proof.
  induction s as [|c s IH]; simpl; [constructor|].
  destruct (is_word c) eqn:Hc; [by constructor|done].
Qed.

(** ** Entries, keys and names *)

Section entry_facts.
Variable style_name : Z → string → string → string → string.

Lemma node_summary_entry node s :
  node_summary style_name node = Ok s → text_entry style_name node = Ok s.2.
Proof.
  unfold node_summary. intros (hs & _ & (e & He & [= <-])%bind_Ok)%bind_Ok. done.
Qed.

Lemma node_summary_hexes node s :
  node_summary style_name node = Ok s → node_hexes node = Ok s.1.
Proof.
  unfold node_summary. intros (hs & Hhs & (e & _ & [= <-])%bind_Ok)%bind_Ok. done.
Qed.

Lemma entries_summaries root ss :
  tree_summary style_name root = Ok ss → omap snd ss = entries style_name root.
Proof.
  intros H%tree_summary_preorder. unfold entries.
  induction H as [|node s nodes ss Hs _ IH]; [done|].
  simpl. rewrite (node_summary_entry _ _ Hs).
  change (list_omap _ _ snd ss) with (omap snd ss). by rewrite IH.
Qed.

(** The output list holds, in order, the entry of each key's first TEXT
    node. *)
Lemma text_styles_keep_first root st :
  parse_node style_name root init = Ok st →
  text_styles st = (keep_first ∅ (entries style_name root)).*2.
Proof.
  rewrite parse_node_summary. intros (ss & Hss & [= <-])%bind_Ok.
  destruct (text_styles_run ss init) as [-> _]. by rewrite (entries_summaries _ _ Hss).
Qed.

Lemma text_entry_inv node k sd :
  text_entry style_name node = Ok (Some (k, sd)) →
  ∃ w fn, py_str (fontWeight sd) = Ok w
          ∧ re_sub_non_word (fontFamily sd) = Ok fn
          ∧ k = style_key (fontSize sd) (color sd) w fn
          ∧ name sd = style_name (fontSize sd) (color sd) w fn
          ∧ Forall (λ c, is_sign_or_hex c = true) (chars (color sd))
          ∧ Forall (λ c, is_word c = true) (chars fn).
Proof.
  unfold text_entry. intros (ty & _ & H)%bind_Ok.
  destruct (eq_str ty "TEXT"); [|done].
  apply bind_Ok in H as ([[[ff fw] fs] c] & Hstyle & H).
  apply bind_Ok in H as (fn & Hfn & H).
  apply bind_Ok in H as (w & Hw & [= <- <-]). simpl.
  exists w, fn. repeat split; try done.
  - by eapply chars_parse_text_style.
  - destruct ff; try done. injection Hfn as <-. apply chars_drop_non_word.
Qed.

Lemma entries_inv root k sd :
  (k, sd) ∈ entries style_name root →
  ∃ node, node ∈ preorder root ∧ text_entry style_name node = Ok (Some (k, sd)).
Proof.
  unfold entries. intros (node & Hin & H)%list_elem_of_omap.
  exists node. split; [done|]. by destruct (text_entry style_name node) as [[]| |]; simplify_eq.
Qed.

End entry_facts.


Section dedup.
Variable style_name : Z → string → string → string → string.



(** A key that occurs among the entries has a first entry. *)
Lemma first_entry {A} (es : list (string * A)) k x :
  (k, x) ∈ es → ∃ before x0 after, es = before ++ (k, x0) :: after ∧ k ∉ before.*1.
Proof.
  induction es as [|[k' x'] es IH]; [by intros ?%elem_of_nil|].
  destruct (decide (k' = k)) as [->|Hne]; [by exists [], x', es; split; [|set_solver]|].
  intros [[= ? ?]|Hin]%elem_of_cons; [done|].
  destruct (IH Hin) as (before & x0 & after & -> & Hk).
  exists ((k', x') :: before), x0, after. split; [done|]. set_solver.
Qed.

End dedup.


(** ** Which entry of a key is kept *)



(** ** Names *)




Lemma chars_length s : length (chars s) = String.length s.
Proof. induction s as [|c s IH]; simpl; [done|]. by rewrite IH. Qed.



Section names.
Variable style_name : Z → string → string → string → string.

End names.





(** ** Colours: order and repetition *)

Lemma paint_cons h hs m : paint (h :: hs) m = paint hs (<["c" +:+ h := "#" +:+ h]> m).
Proof. reflexivity. Qed.

Lemma paint_Permutation hs hs' m : hs ≡ₚ hs' → paint hs m = paint hs' m.
Proof.
  intros H. revert m. induction H as [|x l l' _ IH|x y l|l1 l2 l3 _ IH1 _ IH2]; intros m.
  - done.
  - rewrite !paint_cons. apply IH.
  - rewrite !paint_cons. f_equal. destruct (decide (x = y)) as [->|Hne]; [done|].
    apply insert_insert_ne. intros [= ?]. done.
  - by rewrite IH1.
Qed.

Lemma paint_lookup h hs m :
  h ∈ hs ∨ m !! ("c" +:+ h) = Some ("#" +:+ h) →
  paint hs m !! ("c" +:+ h) = Some ("#" +:+ h).
Proof.
  revert m. induction hs as [|h' hs IH]; intros m; [by intros [?%elem_of_nil|]|].
  rewrite paint_cons. intros H. apply IH.
  destruct (decide (h' = h)) as [->|Hne]; [right; apply lookup_insert_eq|].
  destruct H as [[?|?]%elem_of_cons|H]; [done|by left|].
  right. rewrite lookup_insert_ne; [done|]. by intros [= ?].
Qed.

Lemma paint_id hs m :
  (∀ h, h ∈ hs → m !! ("c" +:+ h) = Some ("#" +:+ h)) → paint hs m = m.
Proof.
  induction hs as [|h hs IH]; [done|]. intros H. rewrite paint_cons.
  rewrite insert_id by (apply H; left). apply IH. intros h' ?. apply H. by right.
Qed.

Lemma run_id ss st :
  (∀ h, h ∈ concat ss.*1 → colors st !! ("c" +:+ h) = Some ("#" +:+ h)) →
  (∀ k, k ∈ (omap snd ss).*1 → k ∈ unique_styles st) →
  run ss st = st.
Proof.
  induction ss as [|[hs e] ss IH]; [done|]. simpl. intros Hc Hk.
  assert (apply_summary (hs, e) st = st) as ->.
  { unfold apply_summary. simpl.
    rewrite paint_id by (intros h ?; apply Hc; set_solver).
    destruct st as [cs ts us]. destruct e as [[k sd]|]; [|done]. simpl in *.
    rewrite bool_decide_eq_true_2; [done|]. apply Hk. left. }
  apply IH.
  - intros h ?. apply Hc. set_solver.
  - intros k ?. apply Hk. destruct e as [[k' sd]|]; [by right|done].
Qed.

Section reordering.
Variable style_name : Z → string → string → string → string.

Lemma dict_get_app_children k (d1 d2 : list (string * value)) v :
  dict_get "children" d1 = None →
  dict_get k (d1 ++ ("children", v) :: d2)
  = if String.eqb k "children" then Some v else dict_get k (d1 ++ d2).
Proof.
  intros Hd1. induction d1 as [|[k' v'] d1 IH].
  - apply dict_get_cons.
  - rewrite <- !app_comm_cons, !dict_get_cons. rewrite dict_get_cons in Hd1.
    destruct (String.eqb_spec "children" k') as [<-|Hne]; [done|].
    destruct (String.eqb_spec k k') as [->|Hne'].
    + destruct (String.eqb_spec k' "children"); [by subst|done].
    + by apply IH.
Qed.

(** What a node contributes does not depend on its [children]. *)
Lemma node_summary_children d1 d2 v v' :
  dict_get "children" d1 = None →
  node_summary style_name (VDict (d1 ++ ("children", v) :: d2))
  = node_summary style_name (VDict (d1 ++ ("children", v') :: d2)).
Proof.
  intros Hd1.
  unfold node_summary, node_hexes, text_entry, parse_text_style, parse_text_style_try,
    contains, getitem, get_or.
  by rewrite !(dict_get_app_children _ _ _ v Hd1), !(dict_get_app_children _ _ _ v' Hd1).
Qed.

Lemma mapM_tree_summary_reordered l l' sss :
  Forall (λ c, ∀ c' ss, reordered c c' → tree_summary style_name c = Ok ss →
                 ∃ ss', tree_summary style_name c' = Ok ss' ∧ ss ≡ₚ ss') l →
  Forall2 reordered l l' →
  mapM (tree_summary style_name) l = Ok sss →
  ∃ sss', mapM (tree_summary style_name) l' = Ok sss' ∧ concat sss ≡ₚ concat sss'.
Proof.
  intros IH Hl. revert sss. induction Hl as [|c c' l l' Hc Hl IHl]; intros sss.
  - intros [= <-]. by exists [].
  - apply Forall_cons in IH as [IHc IH]. rewrite mapM_cons.
    intros (ss & Hss & (sss0 & Hsss0 & [= <-])%bind_Ok)%bind_Ok.
    destruct (IHc c' ss Hc Hss) as (ss' & Hss' & Hp).
    destruct (IHl IH sss0 Hsss0) as (sss' & Hsss' & Hp').
    exists (ss' :: sss'). rewrite mapM_cons, Hss', Hsss'. split; [done|].
    simpl. by rewrite Hp, Hp'.
Qed.

Lemma mapM_tree_summary_Permutation (l l' : list value) sss :
  l ≡ₚ l' → mapM (tree_summary style_name) l = Ok sss →
  ∃ sss', mapM (tree_summary style_name) l' = Ok sss' ∧ concat sss ≡ₚ concat sss'.
Proof.
  intros Hp H%mapM_Ok.
  destruct (Permutation_Forall2 Hp H) as (sss' & Hp' & H').
  exists sss'. split; [by apply mapM_Ok|]. by rewrite Hp'.
Qed.

Lemma tree_summary_dict d :
  tree_summary style_name (VDict d)
  = s ← node_summary style_name (VDict d);
    match dict_get "children" d with
    | None => Ok [s]
    | Some (VList l) => ss ← mapM (tree_summary style_name) l; Ok (s :: concat ss)
    | Some children =>
        items ← iterate children; ss ← mapM (node_summary style_name) items; Ok (s :: ss)
    end.
Proof.
  simpl. destruct (node_summary style_name (VDict d)) as [s| |]; [simpl|done..].
  rewrite dict_case_get. by destruct (dict_get "children" d) as [[]|].
Qed.

(** Reordering children permutes the contributions of a tree. *)
Lemma tree_summary_reordered t :
  ∀ t' ss, reordered t t' → tree_summary style_name t = Ok ss →
           ∃ ss', tree_summary style_name t' = Ok ss' ∧ ss ≡ₚ ss'.
Proof.
  induction t as [t IH] using value_children_ind. intros t' ss Hr Hss.
  inversion Hr as [|d1 d2 l l' l'' Hd1 Hl Hp]; subst; [by exists ss|].
  assert (dict_get "children" (d1 ++ ("children", VList l) :: d2) = Some (VList l)) as Hget.
  { by rewrite dict_get_app_children. }
  specialize (IH _ _ eq_refl Hget).
  rewrite tree_summary_dict in Hss. rewrite tree_summary_dict.
  rewrite Hget in Hss. rewrite dict_get_app_children by done.
  change (String.eqb "children" "children") with true. cbv iota.
  rewrite (node_summary_children d1 d2 (VList l'') (VList l)) by done.
  apply bind_Ok in Hss as (s & -> & (sss & Hsss & [= <-])%bind_Ok). simpl.
  destruct (mapM_tree_summary_reordered l l' sss IH Hl Hsss) as (sss' & Hsss' & Hp').
  destruct (mapM_tree_summary_Permutation l' l'' sss' Hp Hsss') as (sss'' & -> & Hp'').
  eexists. split; [done|]. constructor. by rewrite Hp'.
Qed.
End reordering.

(** C9. Colour extraction is idempotent and does not depend on the order
    of siblings: a second walk of a tree leaves the state of the first
    unchanged, and the walk of a tree with its children reordered returns
    as well, with the same colour mapping. *)
Theorem colors_idempotent_and_order_independent :
  (∀ style_name t st st1,
     parse_node style_name t st = Ok st1 → parse_node style_name t st1 = Ok st1)
  ∧ (∀ style_name t t' st st1,
       reordered t t' → parse_node style_name t st = Ok st1 →
       ∃ st1', parse_node style_name t' st = Ok st1' ∧ colors st1' = colors st1).
Proof.
  split.
  - intros style_name t st st1. rewrite !parse_node_summary.
    intros (ss & -> & [= <-])%bind_Ok. simpl. f_equal. apply run_id.
    + intros h Hh. rewrite colors_run. apply paint_lookup. by left.
    + intros k Hk. destruct (text_styles_run ss st) as [_ ->]. set_solver.
  - intros style_name t t' st st1 Hr. rewrite !parse_node_summary.
    intros (ss & Hss & [= <-])%bind_Ok.
    destruct (tree_summary_reordered style_name t t' ss Hr Hss) as (ss' & -> & Hp).
    eexists. split; [done|]. rewrite !colors_run. apply paint_Permutation.
    by rewrite Hp.
Qed.

Lemma colors_idempotent_and_order_independent_witness :
  ∃ st1', parse_node Main.style_name swapped_siblings.2 init = Ok st1'
          ∧ colors st1' = colors (State {[ "cFF0000" := "#FF0000"; "c0000FF" := "#0000FF" ]} [] ∅).
Proof.
  apply (proj2 colors_idempotent_and_order_independent Main.style_name
           swapped_siblings.1 swapped_siblings.2 init).
  - apply (reordered_children [("type", VStr "FRAME")] []
             [VDict [("fills", VList [solid (VInt 1) (VInt 0) (VInt 0)])];
              VDict [("fills", VList [solid (VInt 0) (VInt 0) (VInt 1)])]]
             [VDict [("fills", VList [solid (VInt 1) (VInt 0) (VInt 0)])];
              VDict [("fills", VList [solid (VInt 0) (VInt 0) (VInt 1)])]]).
    + reflexivity.
    + repeat constructor.
    + apply perm_swap.
  - vm_compute. reflexivity.
Defined.

(** ** Sorting *)

Section sort_facts.
Context {A : Type} (ltb : A → A → bool).

Lemma insert_pure_Permutation x l : insert_pure ltb x l ≡ₚ x :: l.
Proof.
  induction l as [|y l IH]; [done|]. simpl. destruct (ltb y x); [|done].
  rewrite IH. apply perm_swap.
Qed.

Lemma stable_sort_Permutation l : stable_sort ltb l ≡ₚ l.
Proof.
  induction l as [|x l IH]; [done|]. simpl.
  fold (stable_sort ltb l). by rewrite insert_pure_Permutation, IH.
Qed.

(** [sorted] with a comparison that returns [ltb] on the items of the
    list is the pure stable sort. *)
Lemma insert_sorted_pure (lt : A → A → result bool) x l :
  (∀ y, y ∈ l → lt y x = Ok (ltb y x)) →
  insert_sorted lt x l = Ok (insert_pure ltb x l).
Proof.
  induction l as [|y l IH]; [done|]. intros H. simpl.
  rewrite (H y) by left. simpl. destruct (ltb y x); [|done].
  rewrite IH; [done|]. intros y' ?. apply H. by right.
Qed.

Lemma sorted_pure (lt : A → A → result bool) l :
  (∀ x y, x ∈ l → y ∈ l → lt x y = Ok (ltb x y)) →
  sorted lt l = Ok (stable_sort ltb l).
Proof.
  induction l as [|x l IH]; [done|]. intros H. simpl.
  fold (sorted lt l). fold (stable_sort ltb l).
  rewrite IH by (intros; apply H; by right). simpl.
  apply insert_sorted_pure. intros y Hy. apply H; [|left].
  right. by rewrite <- (stable_sort_Permutation l).
Qed.




End sort_facts.


(** *** The order on strings *)






(** *** Colours *)

Lemma item_lt_ltb a b : item_lt a b = Ok (item_ltb a b).
Proof. unfold item_lt, item_ltb. by destruct (negb _). Qed.




(** *** Text styles *)

Lemma sort_key_lt_ltb a b :
  (∃ z, fontWeight a = VInt z) → (∃ z, fontWeight b = VInt z) →
  sort_key_lt a b = Ok (composite_ltb a b).
Proof.
  intros [z Hz] [z' Hz']. unfold sort_key_lt, composite_ltb, int_weight.
  rewrite Hz, Hz'. destruct (negb (fontSize a =? fontSize b)); [done|].
  destruct (negb (String.eqb _ _)); [done|]. simpl.
  unfold Qeq_bool, Qcompare. simpl. rewrite !Z.mul_1_r.
  destruct (Z.eqb_spec z z') as [->|Hne].
  - by rewrite Z.ltb_irrefl.
  - unfold Z.ltb. by destruct (z ?= z').
Qed.








(** * Further properties of the code *)

(** ** The converters *)

Lemma rgba_to_hex_channels (rgba r g b : value) :
  getitem rgba "r" = Ok r → getitem rgba "g" = Ok g → getitem rgba "b" = Ok b →
  rgba_to_hex rgba = rgb_to_hex r g b.
Proof.
  intros Hr Hg Hb. unfold rgba_to_hex, rgb_to_hex. rewrite Hr, Hg, Hb. simpl.
  destruct (round_times r 255); [simpl|done..].
  by destruct (round_times g 255).
Qed.

Lemma length_upper_hex u : String.length (upper_hex u) = Hexadecimal.nb_digits u.
Proof. induction u; simpl; by rewrite ?IHu. Qed.

Lemma to_hex_uint_nonnil n : N.to_hex_uint n ≠ Hexadecimal.Nil.
Proof. destruct n; [done|]. apply HexadecimalPos.Unsigned.to_uint_nonnil. Qed.

(** At most two hexadecimal digits hold at most 255. *)
Lemma of_hex_uint_two_digits u :
  (Hexadecimal.nb_digits u ≤ 2)%nat → (N.of_hex_uint u < 256)%N.
Proof.
  intros H. destruct u as [|u|u|u|u|u|u|u|u|u|u|u|u|u|u|u|u]; [done|..];
    (destruct u as [|u|u|u|u|u|u|u|u|u|u|u|u|u|u|u|u]; [done|..]);
    (destruct u; [done|..]).
  all: simpl in H; lia.
Qed.

Lemma format_02X_length z : (2 ≤ String.length (format_02X z))%nat.
Proof.
  unfold format_02X.
  pose proof (to_hex_uint_nonnil (Z.abs_N z)) as Hnil.
  pose proof (length_upper_hex (N.to_hex_uint (Z.abs_N z))) as Hlen.
  assert (1 ≤ String.length (upper_hex (N.to_hex_uint (Z.abs_N z))))%nat as H1.
  { rewrite Hlen. destruct (N.to_hex_uint (Z.abs_N z)); simpl; (done || lia). }
  set (digits := upper_hex (N.to_hex_uint (Z.abs_N z))) in *.
  destruct (z <? 0); [change (2 ≤ S (String.length digits))%nat; lia|].
  destruct (Nat.ltb_spec (String.length digits) 2); [|done].
  change (2 ≤ S (String.length digits))%nat. lia.
Qed.

(** Two upper-case hexadecimal characters come out of a byte only. *)
Lemma format_02X_byte_only z :
  String.length (format_02X z) = 2%nat →
  Forall (λ c, is_upper_hex c = true) (chars (format_02X z)) →
  0 ≤ z ≤ 255.
Proof.
  unfold format_02X. intros Hlen Hhex. destruct (Z.ltb_spec z 0) as [Hneg|Hpos].
  { apply Forall_cons in Hhex as [Hminus _]. done. }
  split; [done|].
  assert (Hexadecimal.nb_digits (N.to_hex_uint (Z.abs_N z)) ≤ 2)%nat as Hd.
  { rewrite <- length_upper_hex.
    destruct (Nat.ltb_spec (String.length (upper_hex (N.to_hex_uint (Z.abs_N z)))) 2); lia. }
  apply of_hex_uint_two_digits in Hd. rewrite HexadecimalN.Unsigned.of_to in Hd. lia.
Qed.

(** A channel is not clamped: [rgb_to_hex] returns six upper-case
    hexadecimal characters exactly when each rounded channel is a byte. *)
Theorem rgb_to_hex_six_digits_iff (r g b : value) (nr ng nb : Z) :
  round_times r 255 = Ok nr → round_times g 255 = Ok ng → round_times b 255 = Ok nb →
  ∃ s, rgb_to_hex r g b = Ok s
       ∧ (String.length s = 6%nat ∧ Forall (λ c, is_upper_hex c = true) (chars s)
          ↔ 0 ≤ nr ≤ 255 ∧ 0 ≤ ng ≤ 255 ∧ 0 ≤ nb ≤ 255).
Proof.
  intros Hr Hg Hb. unfold rgb_to_hex. rewrite Hr, Hg, Hb. simpl.
  eexists. split; [done|].
  pose proof (format_02X_length nr). pose proof (format_02X_length ng).
  pose proof (format_02X_length nb).
  rewrite <- !chars_length, !chars_app, !length_app, !Forall_app, !chars_length. split.
  - intros [Hlen (Hhr & Hhg & Hhb)].
    repeat split; (apply format_02X_byte_only; [lia|done]).
  - intros (Rr & Rg & Rb).
    destruct (format_02X_byte nr Rr) as (r1 & r2 & -> & ? & ? & _).
    destruct (format_02X_byte ng Rg) as (g1 & g2 & -> & ? & ? & _).
    destruct (format_02X_byte nb Rb) as (b1 & b2 & -> & ? & ? & _).
    split; [done|]. by repeat constructor.
Qed.

Lemma rgb_to_hex_six_digits_iff_witness :
  ∃ s, rgb_to_hex (VInt 2) (VFloat (-1 # 2)) (VInt 0) = Ok s
       ∧ (String.length s = 6%nat ∧ Forall (λ c, is_upper_hex c = true) (chars s)
          ↔ 0 ≤ 510 ≤ 255 ∧ 0 ≤ -128 ≤ 255 ∧ 0 ≤ 0 ≤ 255).
Proof. by apply rgb_to_hex_six_digits_iff. Defined.

(** ** [parse_text_style] *)

(** Whatever the node, the font family returned is not empty (nor any
    other falsy value) and the colour is a non-empty string of upper-case
    hexadecimal digits and minus signs. *)
Theorem parse_text_style_result (node : value) (ff fw : value) (fs : Z) (c : string) :
  parse_text_style node = Ok (ff, fw, fs, c) →
  truthy ff = true
  ∧ c ≠ ""
  ∧ Forall (λ c, is_sign_or_hex c = true) (chars c).
Proof.
  intros H. split; [|split; [|by eapply chars_parse_text_style]].
  - unfold parse_text_style in H.
    destruct (parse_text_style_try node) as [tuple| |] eqn:Htry; simpl in H;
      [|by injection H as <- _ _ _|done].
    injection H as ->. unfold parse_text_style_try in Htry.
    apply bind_Ok in Htry as (style & _ & Htry).
    apply bind_Ok in Htry as (family & _ & Htry).
    apply bind_Ok in Htry as (weight & _ & Htry).
    apply bind_Ok in Htry as (size & _ & Htry).
    apply bind_Ok in Htry as (n & _ & Htry).
    apply bind_Ok in Htry as (fills & _ & Htry).
    apply bind_Ok in Htry as (c' & _ & [= <- _ _ _]).
    by destruct (truthy family) eqn:Hf.
  - unfold parse_text_style in H.
    destruct (parse_text_style_try node) as [tuple| |] eqn:Htry; simpl in H;
      [|by injection H as _ _ _ <-|done].
    injection H as ->. unfold parse_text_style_try in Htry.
    apply bind_Ok in Htry as (style & _ & Htry).
    apply bind_Ok in Htry as (family & _ & Htry).
    apply bind_Ok in Htry as (weight & _ & Htry).
    apply bind_Ok in Htry as (size & _ & Htry).
    apply bind_Ok in Htry as (n & _ & Htry).
    apply bind_Ok in Htry as (fills & _ & Htry).
    apply bind_Ok in Htry as (c' & Hc & [= _ _ _ ->]).
    assert (∀ rgba, rgba_to_hex rgba = Ok c → c ≠ "") as Hhex.
    { intros rgba. unfold rgba_to_hex.
      intros (r0 & _ & (r & _ & (g0 & _ & (g & _ & (b0 & _ & (b & _ & [= <-])
        %bind_Ok)%bind_Ok)%bind_Ok)%bind_Ok)%bind_Ok)%bind_Ok.
      pose proof (format_02X_length r) as Hl. intros Heq%(f_equal String.length).
      rewrite <- !chars_length, !chars_app, !length_app, !chars_length in Heq.
      simpl in Heq. lia. }
    destruct (truthy fills); [|by injection Hc as <-].
    apply bind_Ok in Hc as (items & _ & Hc).
    apply bind_Ok in Hc as (fill & _ & Hc).
    destruct (truthy fill); [|by injection Hc as <-].
    apply bind_Ok in Hc as (rgba & _ & Hc). by eapply Hhex.
Qed.

Lemma parse_text_style_result_witness :
  truthy (VStr "FontNotFound") = true
  ∧ "FF0000" ≠ ""
  ∧ Forall (λ c, is_sign_or_hex c = true) (chars "FF0000").
Proof.
  apply (parse_text_style_result
           (VDict [("style", VDict [("fontFamily", VStr "")]);
                   ("fills", VList [solid (VInt 1) (VInt 0) (VInt 0)])])
           (VStr "FontNotFound") (VInt 400) 14 "FF0000").
  reflexivity.
Defined.




(** ** What a walk that returns has seen and collected *)

Lemma Forall2_elem_of_l {A B} (R : A → B → Prop) l k x :
  Forall2 R l k → x ∈ l → ∃ y, y ∈ k ∧ R x y.
Proof.
  induction 1 as [|a b l k Hab _ IH]; [by intros ?%elem_of_nil|].
  intros [->|Hin]%elem_of_cons; [exists b; split; [left|done]|].
  destruct (IH Hin) as (y & ? & ?). exists y. split; [by right|done].
Qed.

Lemma fill_hex_accepted fill h : fill_hex fill = Ok h → fill_accepted fill.
Proof. intros H m. rewrite add_fill_hex, H. by eexists. Qed.

Lemma fill_hex_type fill h : fill_hex fill = Ok h → ∃ ty, getitem fill "type" = Ok ty.
Proof. unfold fill_hex. intros (ty & Hty & _)%bind_Ok. by exists ty. Qed.

Lemma node_hexes_fills d hs fills fill :
  node_hexes (VDict d) = Ok hs → dict_get "fills" d = Some (VList fills) → fill ∈ fills →
  ∃ h, fill_hex fill = Ok h ∧ ∀ c, h = Some c → c ∈ hs.
Proof.
  unfold node_hexes. simpl. intros H Hfills Hin. rewrite Hfills in H. simpl in H.
  apply bind_Ok in H as (hexes & Hhexes%mapM_Ok & [= <-]).
  destruct (Forall2_elem_of_l _ _ _ _ Hhexes Hin) as (h & Hh & Hfill).
  exists h. split; [done|]. intros c ->. apply list_elem_of_omap. by exists (Some c).
Qed.

Section walk_facts.
Variable style_name : Z → string → string → string → string.

(** The walk returns only if every node it reaches is a dict and
    [add_fill] accepts every fill of the node: one fill without a type,
    anywhere in the tree, and nothing is collected. *)
Theorem walk_reaches_well_formed_nodes (root : value) (st st' : state) :
  parse_node style_name root st = Ok st' →
  ∀ node, node ∈ preorder root →
    ∃ d, node = VDict d
         ∧ ∀ fills fill, dict_get "fills" d = Some (VList fills) → fill ∈ fills →
             fill_accepted fill ∧ ∃ ty, getitem fill "type" = Ok ty.
Proof.
  rewrite parse_node_summary. intros (ss & Hss%tree_summary_preorder & _)%bind_Ok node Hnode.
  destruct (Forall2_elem_of_l _ _ _ _ Hss Hnode) as (s & _ & Hs).
  assert (visit style_name node init = Ok (apply_summary s init)) as Hv
    by (by rewrite visit_summary, Hs).
  destruct node as [| | | | | |dict];
    try (edestruct (visit_not_dict style_name) as [e He];
         [|rewrite He in Hv; discriminate Hv]; done).
  exists dict. split; [done|]. intros fills fill Hfills Hin.
  destruct (node_hexes_fills dict s.1 fills fill (node_summary_hexes _ _ _ Hs) Hfills Hin)
    as (h & Hh & _).
  split; [by eapply fill_hex_accepted|by eapply fill_hex_type].
Qed.
End walk_facts.

Lemma walk_reaches_well_formed_nodes_witness :
  ∃ d, text_node "Roboto" 400 16 = VDict d
       ∧ ∀ fills fill, dict_get "fills" d = Some (VList fills) → fill ∈ fills →
           fill_accepted fill ∧ ∃ ty, getitem fill "type" = Ok ty.
Proof.
  apply (walk_reaches_well_formed_nodes Main.style_name twin_tree init
           (State ∅ [StyleDef "text16c000000w400Roboto" (VStr "Roboto") "000000" 16 (VInt 400)]
                  {["16_000000_400_Roboto"]})).
  - reflexivity.
  - apply list_elem_of_In. simpl. auto.
Defined.

Lemma chars_rgb_to_hex r g b h :
  rgb_to_hex r g b = Ok h → h ≠ "" ∧ Forall (λ c, is_sign_or_hex c = true) (chars h).
Proof.
  unfold rgb_to_hex. intros (nr & _ & (ng & _ & (nb & _ & [= <-])%bind_Ok)%bind_Ok)%bind_Ok.
  split.
  - pose proof (format_02X_length nr) as Hl. intros Heq%(f_equal String.length).
    rewrite <- !chars_length, !chars_app, !length_app, !chars_length in Heq.
    simpl in Heq. lia.
  - rewrite !chars_app, !Forall_app. auto using chars_format_02X.
Qed.

Lemma fill_hex_chars fill h :
  fill_hex fill = Ok (Some h) → h ≠ "" ∧ Forall (λ c, is_sign_or_hex c = true) (chars h).
Proof.
  unfold fill_hex. intros (ty & _ & H)%bind_Ok. destruct (eq_str ty "SOLID"); [|done].
  apply bind_Ok in H as (color & _ & (r & _ & (g & _ & (b & _ & (hex & Hhex & [= <-])
    %bind_Ok)%bind_Ok)%bind_Ok)%bind_Ok). by eapply chars_rgb_to_hex.
Qed.

Lemma node_hexes_chars node hs h :
  node_hexes node = Ok hs → h ∈ hs →
  h ≠ "" ∧ Forall (λ c, is_sign_or_hex c = true) (chars h).
Proof.
  unfold node_hexes. intros (has & _ & H)%bind_Ok. destruct has; [|injection H as <-; by intros ?%elem_of_nil].
  apply bind_Ok in H as (fills & _ & (items & _ & (hexes & Hhexes%mapM_Ok & [= <-])
    %bind_Ok)%bind_Ok).
  intros (o & Ho & Heq)%list_elem_of_omap. simpl in Heq. subst o.
  induction Hhexes as [|f o' items hexes Hf _ IH]; [by apply elem_of_nil in Ho|].
  apply elem_of_cons in Ho as [<-|Ho]; [by eapply fill_hex_chars|by apply IH].
Qed.

Lemma elem_of_concat {A} (x : A) ls : x ∈ concat ls ↔ ∃ l, x ∈ l ∧ l ∈ ls.
Proof.
  induction ls as [|l ls IH]; simpl.
  - split; [by intros ?%elem_of_nil|]. by intros (l & _ & ?%elem_of_nil).
  - rewrite elem_of_app, IH. split.
    + intros [?|(l' & ? & ?)]; [exists l; split; [done|left]|].
      exists l'. split; [done|by right].
    + intros (l' & ? & [->|?]%elem_of_cons); [by left|]. right. by exists l'.
Qed.

Lemma paint_lookup_inv hs m k v :
  paint hs m !! k = Some v →
  (∃ h, h ∈ hs ∧ k = "c" +:+ h ∧ v = "#" +:+ h) ∨ m !! k = Some v.
Proof.
  revert m. induction hs as [|h hs IH]; intros m; [by right|].
  rewrite paint_cons. intros [(h' & ? & ? & ?)|H]%IH.
  - left. exists h'. split; [by right|done].
  - apply lookup_insert_Some in H as [[<- <-]|[_ H]]; [|by right].
    left. exists h. split; [left|done].
Qed.

Section collected.
Variable style_name : Z → string → string → string → string.

(** Every colour a walk collects is named "c" + code with the value
    "#" + code, for one non-empty code of upper-case hexadecimal digits
    and minus signs. *)
Theorem colors_are_codes (root : value) (st : state) :
  parse_node style_name root init = Ok st →
  ∀ k v, colors st !! k = Some v →
    ∃ h, k = "c" +:+ h ∧ v = "#" +:+ h ∧ h ≠ ""
         ∧ Forall (λ c, is_sign_or_hex c = true) (chars h).
Proof.
  rewrite parse_node_summary. intros (ss & Hss%tree_summary_preorder & [= <-])%bind_Ok k v.
  rewrite colors_run. intros [(h & Hh & -> & ->)|H]%paint_lookup_inv; [|done].
  exists h. split; [done|]. split; [done|].
  apply elem_of_concat in Hh as (hs & Hh & (s & -> & Hs)%list_elem_of_fmap).
  assert (∃ node, node_summary style_name node = Ok s) as (node & Hnode).
  { clear Hh. induction Hss as [|n s' ns ss Hn _ IH]; [by apply elem_of_nil in Hs|].
    apply elem_of_cons in Hs as [->|Hs]; [by exists n|by apply IH]. }
  eapply node_hexes_chars; [by eapply node_summary_hexes|done].
Qed.
End collected.

Lemma colors_are_codes_witness :
  ∃ h, "cFF0000" = "c" +:+ h ∧ "#FF0000" = "#" +:+ h ∧ h ≠ ""
       ∧ Forall (λ c, is_sign_or_hex c = true) (chars h).
Proof.
  apply (colors_are_codes Main.style_name swapped_siblings.1
           (State {[ "cFF0000" := "#FF0000"; "c0000FF" := "#0000FF" ]} [] ∅)).
  - vm_compute. reflexivity.
  - vm_compute. reflexivity.
Defined.

Lemma first_solid_elem items fill :
  first_solid items = Ok fill → truthy fill = true → fill ∈ items ∧ is_solid fill.
Proof.
  induction items as [|f items IH]; simpl; [by intros [= <-]|].
  intros (ty & Hty & H)%bind_Ok Ht. destruct (eq_str ty "SOLID") eqn:Hs.
  - injection H as <-. split; [left|by exists ty].
  - destruct (IH H Ht) as [? ?]. split; [by right|done].
Qed.

Lemma fill_hex_solid fill rgba c h :
  is_solid fill → getitem fill "color" = Ok rgba → rgba_to_hex rgba = Ok c →
  fill_hex fill = Ok h → h = Some c.
Proof.
  intros (ty & Hty & Hs) Hrgba Hc. unfold fill_hex. rewrite Hty. simpl.
  rewrite Hs, Hrgba. simpl.
  intros (r & Hr & (g & Hg & (b & Hb & (hex & Hhex & [= <-])%bind_Ok)%bind_Ok)%bind_Ok)%bind_Ok.
  rewrite (rgba_to_hex_channels rgba r g b Hr Hg Hb) in Hc. congruence.
Qed.

Section references.
Variable style_name : Z → string → string → string → string.

(** The colour of a TEXT node is the default or one of the codes
    collected from the fills of that node. *)
Lemma node_colour_collected node hs k sd :
  node_hexes node = Ok hs → text_entry style_name node = Ok (Some (k, sd)) →
  color sd = "000000" ∨ color sd ∈ hs.
Proof.
  intros Hhs. unfold text_entry. intros (ty & _ & H)%bind_Ok.
  destruct (eq_str ty "TEXT"); [|done].
  apply bind_Ok in H as ([[[ff fw] fs] c] & Hstyle & H).
  apply bind_Ok in H as (fn & _ & (w & _ & [= _ <-])%bind_Ok). simpl.
  unfold parse_text_style in Hstyle.
  destruct (parse_text_style_try node) as [tuple| |] eqn:Htry; simpl in Hstyle;
    [|injection Hstyle as _ _ _ <-; by left|done].
  injection Hstyle as ->. unfold parse_text_style_try in Htry.
  apply bind_Ok in Htry as (style & Hsty & Htry).
  destruct node as [| | | | | |d]; try done.
  apply bind_Ok in Htry as (family & _ & Htry).
  apply bind_Ok in Htry as (weight & _ & Htry).
  apply bind_Ok in Htry as (size & _ & Htry).
  apply bind_Ok in Htry as (n & _ & Htry).
  apply bind_Ok in Htry as (fills & [= <-] & Htry).
  apply bind_Ok in Htry as (c' & Hc & [= _ _ _ ->]).
  destruct (dict_get "fills" d) as [fills|] eqn:Hfills; simpl in Hc;
    [|injection Hc as <-; by left].
  destruct (truthy fills); [|injection Hc as <-; by left].
  apply bind_Ok in Hc as (items & Hitems & Hc).
  apply bind_Ok in Hc as (fill & Hfill & Hc).
  destruct (truthy fill) eqn:Ht; [|injection Hc as <-; by left].
  apply bind_Ok in Hc as (rgba & Hrgba & Hc).
  destruct (first_solid_elem _ _ Hfill Ht) as [Hin Hsolid].
  right. unfold node_hexes in Hhs. simpl in Hhs. rewrite Hfills in Hhs. simpl in Hhs.
  rewrite Hitems in Hhs. simpl in Hhs.
  apply bind_Ok in Hhs as (hexes & Hhexes%mapM_Ok & [= <-]).
  destruct (Forall2_elem_of_l _ _ _ _ Hhexes Hin) as (h & Hh & Hhex).
  apply list_elem_of_omap. exists h. split; [done|].
  by eapply fill_hex_solid.
Qed.

(** After a walk, the colour a text style refers to is in the colour
    mapping under its name, unless it is the default "000000", which is
    there only if some fill has it. *)
Theorem text_style_colours_defined (root : value) (st : state) :
  parse_node style_name root init = Ok st →
  ∀ sd, sd ∈ text_styles st →
    color sd = "000000" ∨ colors st !! ("c" +:+ color sd) = Some ("#" +:+ color sd).
Proof.
  intros Hrun sd Hsd. rewrite (text_styles_keep_first _ _ _ Hrun) in Hsd.
  apply list_elem_of_fmap in Hsd as ([k sd'] & -> & Hin). simpl.
  apply keep_first_elem_of in Hin as [_ (before & after & Hes & _)].
  destruct (entries_inv style_name root k sd') as (node & Hnode & Hentry).
  { rewrite Hes. set_solver. }
  rewrite parse_node_summary in Hrun.
  apply bind_Ok in Hrun as (ss & Hss%tree_summary_preorder & [= <-]).
  destruct (Forall2_elem_of_l _ _ _ _ Hss Hnode) as (s & Hs & Hsum).
  destruct (node_colour_collected node s.1 k sd' (node_summary_hexes _ _ _ Hsum) Hentry)
    as [?|Hc]; [by left|].
  right. rewrite colors_run. apply paint_lookup. left.
  apply elem_of_concat. exists s.1. split; [done|]. apply list_elem_of_fmap. by exists s.
Qed.

(** The list of styles and the set of keys seen grow together. *)
Theorem styles_and_keys_in_step (root : value) (st : state) :
  parse_node style_name root init = Ok st →
  length (text_styles st) = size (unique_styles st).
Proof.
  intros Hrun. rewrite (text_styles_keep_first _ _ _ Hrun).
  rewrite parse_node_summary in Hrun. apply bind_Ok in Hrun as (ss & Hss & [= <-]).
  destruct (text_styles_run ss init) as [_ ->].
  rewrite (entries_summaries _ _ _ Hss). simpl.
  destruct (keep_first_keys ∅ (entries style_name root)) as [Hnd Hsub].
  rewrite length_fmap, <- (length_fmap fst), <- (size_list_to_set (C := gset string)) by done.
  f_equal. apply set_eq. intros k. rewrite elem_of_union, !elem_of_list_to_set. split.
  - intros [_ ?]%Hsub. by left.
  - intros [Hk|?%elem_of_empty]; [|done].
    apply list_elem_of_fmap in Hk as ([k' sd] & -> & Hin).
    destruct (first_entry _ _ _ Hin) as (before & sd0 & after & Hes & Hk).
    apply list_elem_of_fmap. exists (k', sd0). split; [done|].
    apply keep_first_elem_of. split; [set_solver|]. by exists before, after.
Qed.

End references.

Lemma text_style_colours_defined_witness :
  color (StyleDef "text16cFF0000w700Roboto" (VStr "Roboto") "FF0000" 16 (VInt 700)) = "000000"
  ∨ colors (State {[ "cFF0000" := "#FF0000" ]}
                  [StyleDef "text16cFF0000w700Roboto" (VStr "Roboto") "FF0000" 16 (VInt 700)]
                  {["16_FF0000_700_Roboto"]})
      !! ("c" +:+ color (StyleDef "text16cFF0000w700Roboto" (VStr "Roboto") "FF0000" 16
                                  (VInt 700)))
    = Some ("#" +:+ color (StyleDef "text16cFF0000w700Roboto" (VStr "Roboto") "FF0000" 16
                                    (VInt 700))).
Proof.
  refine (text_style_colours_defined Main.style_name
           (VDict [("children", VList [
              VDict [("type", VStr "TEXT");
                     ("style", VDict [("fontFamily", VStr "Roboto"); ("fontWeight", VInt 700);
                                      ("fontSize", VInt 16)]);
                     ("fills", VList [solid (VInt 1) (VInt 0) (VInt 0)])]])])
           (State {[ "cFF0000" := "#FF0000" ]}
                  [StyleDef "text16cFF0000w700Roboto" (VStr "Roboto") "FF0000" 16 (VInt 700)]
                  {["16_FF0000_700_Roboto"]}) _
           (StyleDef "text16cFF0000w700Roboto" (VStr "Roboto") "FF0000" 16 (VInt 700)) _).
  - vm_compute. reflexivity.
  - left.
Defined.

Lemma styles_and_keys_in_step_witness :
  length (text_styles
            (State ∅ [StyleDef "text16c000000w400Roboto" (VStr "Roboto") "000000" 16
                               (VInt 400)]
                   {["16_000000_400_Roboto"]}))
  = size (unique_styles
            (State ∅ [StyleDef "text16c000000w400Roboto" (VStr "Roboto") "000000" 16
                               (VInt 400)]
                   {["16_000000_400_Roboto"]})).
Proof.
  refine (styles_and_keys_in_step Main.style_name twin_tree
            (State ∅ [StyleDef "text16c000000w400Roboto" (VStr "Roboto") "000000" 16
                               (VInt 400)]
                   {["16_000000_400_Roboto"]}) _).
  vm_compute. reflexivity.
Defined.


(** ** The drivers: complete and partial runs *)

Lemma save_colors_xml_run colors :
  save_colors_xml colors
  = IO [Print (Generating COLORS_OUTPUT);
        WriteFile COLORS_OUTPUT (xml_content (stable_sort item_ltb (map_to_list colors)));
        Print (Generated COLORS_OUTPUT (size colors))] (Ok tt).
Proof.
  assert (sorted_colors colors = Ok (stable_sort item_ltb (map_to_list colors))) as Hs.
  { apply sorted_pure. intros. apply item_lt_ltb. }
  unfold save_colors_xml, mbind, io_bind, lift. simpl. by rewrite Hs.
Qed.

Lemma mapM_style_block fallback_fonts l :
  Forall (λ sd, (∃ z, fontWeight sd = VInt z) ∧ ∃ f, fontFamily sd = VStr f) l →
  ∃ blocks, mapM (style_block fallback_fonts) l = Ok blocks.
Proof.
  induction 1 as [|sd l [[z Hz] [f Hf]] _ [blocks IH]]; [by exists []|].
  rewrite mapM_cons, IH. unfold style_block. rewrite Hz, Hf. simpl. by eexists.
Qed.

Lemma save_text_styles_dart_run package fallback_fonts l :
  Forall (λ sd, (∃ z, fontWeight sd = VInt z) ∧ ∃ f, fontFamily sd = VStr f) l →
  ∃ content,
    dart_content package fallback_fonts (stable_sort composite_ltb l) = Ok content
    ∧ save_text_styles_dart package fallback_fonts l
      = IO [Print (Generating TEXTSTYLES_OUTPUT); WriteFile TEXTSTYLES_OUTPUT content;
            Print (Generated TEXTSTYLES_OUTPUT (length l))] (Ok tt).
Proof.
  intros Hl.
  assert (sorted_styles l = Ok (stable_sort composite_ltb l)) as Hs.
  { apply sorted_pure. rewrite Forall_forall in Hl.
    intros x y Hx Hy. apply sort_key_lt_ltb; by apply Hl. }
  destruct (mapM_style_block fallback_fonts (stable_sort composite_ltb l))
    as [blocks Hblocks].
  { rewrite Forall_forall in *. intros sd Hsd. apply Hl.
    by rewrite stable_sort_Permutation in Hsd. }
  eexists. split.
  - unfold dart_content. rewrite Hblocks. reflexivity.
  - unfold save_text_styles_dart, mbind, io_bind, lift. simpl. rewrite Hs. simpl.
    unfold dart_content. rewrite Hblocks. reflexivity.
Qed.

Lemma walked_styles_printable style_name root st :
  parse_node style_name root init = Ok st → int_weights style_name root →
  Forall (λ sd, (∃ z, fontWeight sd = VInt z) ∧ ∃ f, fontFamily sd = VStr f) (text_styles st).
Proof.
  intros Hrun Hint. apply Forall_forall. intros sd Hsd.
  rewrite (text_styles_keep_first _ _ _ Hrun) in Hsd.
  apply list_elem_of_fmap in Hsd as ([k sd'] & -> & Hin). simpl.
  apply keep_first_elem_of in Hin as [_ (before & after & Hes & _)].
  assert ((k, sd') ∈ entries style_name root) as Hin by (rewrite Hes; set_solver).
  split; [by apply (Hint k)|].
  destruct (entries_inv style_name root k sd' Hin) as (node & _ & Hentry).
  destruct (text_entry_inv _ _ _ _ Hentry) as (w & fn & _ & Hfn & _).
  destruct (fontFamily sd'); try done. by eexists.
Qed.

Local Opaque save_colors_xml save_text_styles_dart.

Lemma main_process_figma_file_walked r figma_data document st :
  status_code r = 200 → json r = Ok figma_data →
  getitem figma_data "document" = Ok document →
  Main.parse_node document init = Ok st →
  Main.process_figma_file (Ok r)
  = (emit (Print Fetching);; emit (Print Fetched);;
     save_colors_xml (colors st);; Main.save_text_styles_dart (text_styles st)).
Proof.
  intros Hs Hj Hd Hw.
  unfold Main.process_figma_file, Main.save_text_styles_dart, mbind, io_bind. simpl.
  rewrite Hs, Hj. simpl. rewrite Hd. simpl. rewrite Hw. simpl.
  rewrite save_colors_xml_run. simpl.
  by destruct (outcome (save_text_styles_dart "screnzo85_app" None (text_styles st))).
Qed.

Lemma by_id_process_target_walked NODE_ID target root_node st :
  get_or target "document" VNone = Ok root_node → truthy root_node = true →
  ById.parse_node root_node init = Ok st →
  ById.process_target NODE_ID target
  = (save_colors_xml (colors st);; ById.save_text_styles_dart (text_styles st)).
Proof.
  intros Hdoc Ht Hw.
  unfold ById.process_target, ById.save_text_styles_dart, mbind, io_bind. simpl.
  rewrite Hdoc. simpl. rewrite Ht. simpl. rewrite Hw. simpl.
  rewrite save_colors_xml_run. simpl.
  by destruct (outcome (save_text_styles_dart "your_app_name" (Some FALLBACK_FONTS)
                          (text_styles st))).
Qed.

Local Transparent save_colors_xml save_text_styles_dart.

(** A run of [main.py] on a response with status 200 whose document the
    walker gets through, all font weights being integers: both files are
    written, the colour sheet first, each with its entries sorted, and
    the run returns. *)
Theorem main_run_writes_both_files (r : response) (figma_data document : value) (st : state) :
  status_code r = 200 → json r = Ok figma_data →
  getitem figma_data "document" = Ok document →
  Main.parse_node document init = Ok st →
  int_weights Main.style_name document →
  ∃ content,
    dart_content "screnzo85_app" None (stable_sort composite_ltb (text_styles st)) = Ok content
    ∧ Main.process_figma_file (Ok r)
      = IO [Print Fetching; Print Fetched;
            Print (Generating COLORS_OUTPUT);
            WriteFile COLORS_OUTPUT
              (xml_content (stable_sort item_ltb (map_to_list (colors st))));
            Print (Generated COLORS_OUTPUT (size (colors st)));
            Print (Generating TEXTSTYLES_OUTPUT);
            WriteFile TEXTSTYLES_OUTPUT content;
            Print (Generated TEXTSTYLES_OUTPUT (length (text_styles st)))] (Ok tt).
Proof.
  intros Hs Hj Hd Hw Hint.
  destruct (save_text_styles_dart_run "screnzo85_app" None (text_styles st))
    as (content & Hcontent & Hsave).
  { by apply (walked_styles_printable Main.style_name document). }
  exists content. split; [done|].
  rewrite (main_process_figma_file_walked r figma_data document st Hs Hj Hd Hw).
  unfold Main.save_text_styles_dart. rewrite Hsave, save_colors_xml_run. reflexivity.
Qed.

(** When sorting the styles raises (two styles of one size and colour
    whose weights cannot be compared), the colour sheet is already on
    disk: the run of [main.py] leaves [colors.xml] without the Dart
    file, and ends with the exception. *)
Theorem colours_written_when_styles_fail (r : response) (figma_data document : value)
    (st : state) (e : exn) :
  status_code r = 200 → json r = Ok figma_data →
  getitem figma_data "document" = Ok document →
  Main.parse_node document init = Ok st →
  sorted_styles (text_styles st) = Raise e →
  Main.process_figma_file (Ok r)
  = IO [Print Fetching; Print Fetched;
        Print (Generating COLORS_OUTPUT);
        WriteFile COLORS_OUTPUT (xml_content (stable_sort item_ltb (map_to_list (colors st))));
        Print (Generated COLORS_OUTPUT (size (colors st)));
        Print (Generating TEXTSTYLES_OUTPUT)] (Raise e).
Proof.
  intros Hs Hj Hd Hw Hsort.
  rewrite (main_process_figma_file_walked r figma_data document st Hs Hj Hd Hw).
  rewrite save_colors_xml_run.
  unfold Main.save_text_styles_dart, save_text_styles_dart, mbind, io_bind, lift. simpl.
  by rewrite Hsort.
Qed.

Lemma main_run_writes_both_files_witness :
  ∃ content,
    dart_content "screnzo85_app" None
      (stable_sort composite_ltb
         [StyleDef "text16c000000w400Roboto" (VStr "Roboto") "000000" 16 (VInt 400)])
    = Ok content
    ∧ Main.process_figma_file (Ok (Response 200 "" (Ok (VDict [("document", twin_tree)]))))
      = IO [Print Fetching; Print Fetched;
            Print (Generating COLORS_OUTPUT);
            WriteFile COLORS_OUTPUT (xml_content (stable_sort item_ltb (map_to_list ∅)));
            Print (Generated COLORS_OUTPUT (size (∅ : gmap string string)));
            Print (Generating TEXTSTYLES_OUTPUT);
            WriteFile TEXTSTYLES_OUTPUT content;
            Print (Generated TEXTSTYLES_OUTPUT 1)] (Ok tt).
Proof.
  apply (main_run_writes_both_files
           (Response 200 "" (Ok (VDict [("document", twin_tree)])))
           (VDict [("document", twin_tree)]) twin_tree
           (State ∅ [StyleDef "text16c000000w400Roboto" (VStr "Roboto") "000000" 16 (VInt 400)]
                  {["16_000000_400_Roboto"]})
           eq_refl eq_refl eq_refl eq_refl).
  intros k sd Hin. apply list_elem_of_In in Hin. simpl in Hin.
  destruct Hin as [[= <- <-]|[[= <- <-]|[]]]; by exists 400.
Defined.

Lemma colours_written_when_styles_fail_witness :
  Main.process_figma_file (Ok (Response 200 "" (Ok mixed_weights_tree)))
  = IO [Print Fetching; Print Fetched;
        Print (Generating COLORS_OUTPUT);
        WriteFile COLORS_OUTPUT
          (xml_content (stable_sort item_ltb (map_to_list (colors
           (State ({[ "cFF0000" := "#FF0000" ]} : gmap string string)
                  [StyleDef "text14cFF0000w400Roboto" (VStr "Roboto") "FF0000" 14 (VInt 400);
                   StyleDef "text14cFF0000wboldRoboto" (VStr "Roboto") "FF0000" 14
                            (VStr "bold")]
                  ({["14_FF0000_400_Roboto"; "14_FF0000_bold_Roboto"]} : gset string))))));
        Print (Generated COLORS_OUTPUT (size (colors
           (State ({[ "cFF0000" := "#FF0000" ]} : gmap string string)
                  [StyleDef "text14cFF0000w400Roboto" (VStr "Roboto") "FF0000" 14 (VInt 400);
                   StyleDef "text14cFF0000wboldRoboto" (VStr "Roboto") "FF0000" 14
                            (VStr "bold")]
                  ({["14_FF0000_400_Roboto"; "14_FF0000_bold_Roboto"]} : gset string)))));
        Print (Generating TEXTSTYLES_OUTPUT)] (Raise TypeError).
Proof.
  refine (colours_written_when_styles_fail
           (Response 200 "" (Ok mixed_weights_tree)) mixed_weights_tree
           (frame [
              VDict [("type", VStr "TEXT"); ("fills", VList [solid (VInt 1) (VInt 0) (VInt 0)]);
                     ("style", VDict [("fontFamily", VStr "Roboto");
                                      ("fontWeight", VInt 400)])];
              VDict [("type", VStr "TEXT"); ("fills", VList [solid (VInt 1) (VInt 0) (VInt 0)]);
                     ("style", VDict [("fontFamily", VStr "Roboto");
                                      ("fontWeight", VStr "bold")])]])
           (State ({[ "cFF0000" := "#FF0000" ]} : gmap string string)
                  [StyleDef "text14cFF0000w400Roboto" (VStr "Roboto") "FF0000" 14 (VInt 400);
                   StyleDef "text14cFF0000wboldRoboto" (VStr "Roboto") "FF0000" 14
                            (VStr "bold")]
                  ({["14_FF0000_400_Roboto"; "14_FF0000_bold_Roboto"]} : gset string))
           TypeError _ _ _ _ _).
  - reflexivity.
  - reflexivity.
  - reflexivity.
  - vm_compute. reflexivity.
  - vm_compute. reflexivity.
Defined.

(** *** The by-id script *)

(** A [nodes] mapping that holds the requested identifier with a node
    under it: the run walks the [document] of that node, whatever else
    the mapping holds, and writes both files. *)
Theorem by_id_run_writes_both_files (NODE_ID : string) (r : response)
    (figma_data target root_node : value) (nodes_map : list (string * value)) (st : state) :
  status_code r = 200 → json r = Ok figma_data →
  get_or figma_data "nodes" (VDict []) = Ok (VDict nodes_map) →
  dict_get NODE_ID nodes_map = Some target → truthy target = true →
  get_or target "document" VNone = Ok root_node → truthy root_node = true →
  ById.parse_node root_node init = Ok st →
  int_weights ById.style_name root_node →
  ∃ content,
    dart_content "your_app_name" (Some FALLBACK_FONTS)
      (stable_sort composite_ltb (text_styles st)) = Ok content
    ∧ ById.process_figma_file NODE_ID (Ok r)
      = IO [Print Fetching; Print Fetched;
            Print (Generating COLORS_OUTPUT);
            WriteFile COLORS_OUTPUT
              (xml_content (stable_sort item_ltb (map_to_list (colors st))));
            Print (Generated COLORS_OUTPUT (size (colors st)));
            Print (Generating TEXTSTYLES_OUTPUT);
            WriteFile TEXTSTYLES_OUTPUT content;
            Print (Generated TEXTSTYLES_OUTPUT (length (text_styles st)))] (Ok tt).
Proof.
  intros Hs Hj Hn Hk Ht Hdoc Hroot Hw Hint.
  destruct (save_text_styles_dart_run "your_app_name" (Some FALLBACK_FONTS) (text_styles st))
    as (content & Hcontent & Hsave).
  { by apply (walked_styles_printable ById.style_name root_node). }
  exists content. split; [done|].
  rewrite (process_figma_file_lookup NODE_ID r figma_data nodes_map Hs Hj Hn), Hk. simpl.
  rewrite Ht. simpl.
  rewrite (by_id_process_target_walked NODE_ID target root_node st Hdoc Hroot Hw).
  unfold ById.save_text_styles_dart. rewrite Hsave, save_colors_xml_run. reflexivity.
Qed.

Lemma by_id_run_writes_both_files_witness :
  ∃ content,
    dart_content "your_app_name" (Some FALLBACK_FONTS)
      (stable_sort composite_ltb
         [StyleDef "textStyle16c000000Roboto400" (VStr "Roboto") "000000" 16 (VInt 400)])
    = Ok content
    ∧ ById.process_figma_file "1:2"
        (Ok (Response 200 ""
               (Ok (VDict [("nodes", VDict [("0:1", VNone);
                                            ("1:2", VDict [("document", twin_tree)])])]))))
      = IO [Print Fetching; Print Fetched;
            Print (Generating COLORS_OUTPUT);
            WriteFile COLORS_OUTPUT (xml_content (stable_sort item_ltb (map_to_list ∅)));
            Print (Generated COLORS_OUTPUT (size (∅ : gmap string string)));
            Print (Generating TEXTSTYLES_OUTPUT);
            WriteFile TEXTSTYLES_OUTPUT content;
            Print (Generated TEXTSTYLES_OUTPUT 1)] (Ok tt).
Proof.
  apply (by_id_run_writes_both_files "1:2"
           (Response 200 ""
              (Ok (VDict [("nodes", VDict [("0:1", VNone);
                                           ("1:2", VDict [("document", twin_tree)])])])))
           (VDict [("nodes", VDict [("0:1", VNone); ("1:2", VDict [("document", twin_tree)])])])
           (VDict [("document", twin_tree)]) twin_tree
           [("0:1", VNone); ("1:2", VDict [("document", twin_tree)])]
           (State ∅ [StyleDef "textStyle16c000000Roboto400" (VStr "Roboto") "000000" 16
                              (VInt 400)]
                  {["16_000000_400_Roboto"]})
           eq_refl eq_refl eq_refl eq_refl eq_refl eq_refl eq_refl eq_refl).
  intros k sd Hin. apply list_elem_of_In in Hin. simpl in Hin.
  destruct Hin as [[= <- <-]|[[= <- <-]|[]]]; by exists 400.
Defined.

(** A [nodes] mapping whose only value is null, or another empty value
    that is not a dict: the fallback takes it for the target, whether or
    not it stands under the requested identifier, and the run ends with
    AttributeError at [target_node_data.get], after the note on the
    single node and before any file. *)
Theorem by_id_single_null_node_raises (NODE_ID : string) (r : response)
    (figma_data target : value) (key : string) :
  status_code r = 200 → json r = Ok figma_data →
  get_or figma_data "nodes" (VDict []) = Ok (VDict [(key, target)]) →
  truthy target = false → (∀ d, target ≠ VDict d) →
  ById.process_figma_file NODE_ID (Ok r)
  = IO [Print Fetching; Print Fetched; Print (UsedSingleNode key)] (Raise AttributeError).
Proof.
  intros Hs Hj Hn Ht Hd.
  rewrite (process_figma_file_lookup NODE_ID r figma_data [(key, target)] Hs Hj Hn).
  assert (truthy (default VNone (dict_get NODE_ID [(key, target)])) = false) as Hfalsy.
  { rewrite dict_get_cons. by destruct (String.eqb NODE_ID key). }
  cbv zeta. rewrite Hfalsy. simpl. unfold ById.process_target.
  destruct target as [| | | | | |d]; try reflexivity. by destruct (Hd d).
Qed.

Lemma by_id_single_null_node_raises_witness :
  ById.process_figma_file "1:2"
    (Ok (Response 200 "" (Ok (VDict [("nodes", VDict [("1:2", VNone)])]))))
  = IO [Print Fetching; Print Fetched; Print (UsedSingleNode "1:2")] (Raise AttributeError).
Proof.
  apply (by_id_single_null_node_raises "1:2"
           (Response 200 "" (Ok (VDict [("nodes", VDict [("1:2", VNone)])])))
           (VDict [("nodes", VDict [("1:2", VNone)])]) VNone "1:2"
           eq_refl eq_refl eq_refl eq_refl).
  discriminate.
Defined.

(** *** The entry points *)

(** The closing lines of both scripts, which name the two files as
    generated, are printed exactly when [process_figma_file] returns: also
    after a fetch that failed, when nothing was written, and not when the
    run raises. *)
Theorem all_done_is_printed_iff_the_run_returns :
  (∀ http_get,
     inl (AllDone [COLORS_OUTPUT; TEXTSTYLES_OUTPUT]) ∈ script_trace (main_py http_get)
     ↔ script_outcome (main_py http_get) = Ok tt)
  ∧ (∀ FIGMA_TOKEN FILE_KEY NODE_ID http_get,
       inl (AllDone [COLORS_OUTPUT; TEXTSTYLES_OUTPUT])
         ∈ script_trace (by_id_py FIGMA_TOKEN FILE_KEY NODE_ID http_get)
       ↔ script_outcome (by_id_py FIGMA_TOKEN FILE_KEY NODE_ID http_get) = Ok tt)
  ∧ (∀ r, status_code r ≠ 200 →
       main_py (Ok r)
       = ScriptRun [inl (Banner "Figma Color & TextStyle Generator");
                    inr (Print Fetching); inr (Print (FetchFailed (text r)));
                    inl (AllDone [COLORS_OUTPUT; TEXTSTYLES_OUTPUT])] (Ok tt))
  ∧ (∀ NODE_ID r, status_code r ≠ 200 →
       by_id_py "token" "key" NODE_ID (Ok r)
       = ScriptRun ((inl <$> Banner "Figma Color & TextStyle Generator (By Node ID)"
                            :: if substringb "node_id" NODE_ID then [ConfigWarning] else [])
                    ++ [inr (Print Fetching); inr (Print (FetchFailed (text r)));
                        inl (AllDone [COLORS_OUTPUT; TEXTSTYLES_OUTPUT])]) (Ok tt)).
Proof.
  assert (∀ opening m,
            (∀ files, AllDone files ∉ opening) →
            inl (AllDone [COLORS_OUTPUT; TEXTSTYLES_OUTPUT]) ∈ script_trace (script opening m)
            ↔ script_outcome (script opening m) = Ok tt) as Hscript.
  { intros opening m Hopen. unfold script. simpl. rewrite !elem_of_app. split.
    - intros [(c & [= <-] & Hc)%list_elem_of_fmap|[(e & [=] & _)%list_elem_of_fmap|H]].
      + by destruct (Hopen _ Hc).
      + destruct (outcome m) as [[]| |]; [done|by apply elem_of_nil in H..].
    - intros ->. right. right. left. }
  assert (∀ r, status_code r ≠ 200 → negb (status_code r =? 200) = true) as Hne.
  { intros r H. apply negb_true_iff, Z.eqb_neq, H. }
  repeat apply conj.
  - intros http_get. apply Hscript. intros files [=]%list_elem_of_singleton.
  - intros FIGMA_TOKEN FILE_KEY NODE_ID http_get. apply Hscript. intros files.
    destruct (_ || _); [|by intros [=]%list_elem_of_singleton].
    intros [[=]|[=]%list_elem_of_singleton]%elem_of_cons.
  - intros r H. unfold main_py, script, Main.process_figma_file, mbind, io_bind. simpl.
    by rewrite (Hne r H).
  - intros NODE_ID r H. unfold by_id_py, script, ById.process_figma_file, mbind, io_bind.
    simpl. rewrite (Hne r H). simpl.
    by destruct (substringb "node_id" NODE_ID).
Qed.

Lemma all_done_is_printed_iff_the_run_returns_witness :
  main_py (Ok (Response 403 "Forbidden" (Raise ValueError)))
  = ScriptRun [inl (Banner "Figma Color & TextStyle Generator");
               inr (Print Fetching); inr (Print (FetchFailed "Forbidden"));
               inl (AllDone [COLORS_OUTPUT; TEXTSTYLES_OUTPUT])] (Ok tt).
Proof.
  apply (proj1 (proj2 (proj2 all_done_is_printed_iff_the_run_returns))
           (Response 403 "Forbidden" (Raise ValueError))).
  discriminate.
Defined.

(** ** [figma_to_json_by_id.py] *)

Lemma safe_node_id_cons c s :
  ToJson.safe_node_id (String c s)
  = String (if Ascii.eqb (if Ascii.eqb c ":" then "_" else c) "-" then "_"
            else if Ascii.eqb c ":" then "_" else c)%char
           (ToJson.safe_node_id s).
Proof. reflexivity. Qed.

Lemma safe_char_alike (x y : ascii) :
  (if Ascii.eqb (if Ascii.eqb x ":" then "_" else x) "-" then "_"
   else if Ascii.eqb x ":" then "_" else x)%char
  = (if Ascii.eqb (if Ascii.eqb y ":" then "_" else y) "-" then "_"
     else if Ascii.eqb y ":" then "_" else y)%char
  ↔ x = y ∨ is_separator x = true ∧ is_separator y = true.
Proof.
  unfold is_separator.
  destruct (Ascii.eqb_spec x ":") as [->|Hx1], (Ascii.eqb_spec y ":") as [->|Hy1]; simpl.
  - tauto.
  - destruct (Ascii.eqb_spec y "-") as [->|Hy2]; simpl; [tauto|].
    destruct (Ascii.eqb_spec y "_") as [->|Hy3]; simpl; [tauto|].
    split; [congruence|]. intros [?|[_ ?]]; congruence.
  - destruct (Ascii.eqb_spec x "-") as [->|Hx2]; simpl; [tauto|].
    destruct (Ascii.eqb_spec x "_") as [->|Hx3]; simpl; [tauto|].
    split; [congruence|]. intros [?|[? _]]; congruence.
  - destruct (Ascii.eqb_spec x "-") as [->|Hx2], (Ascii.eqb_spec y "-") as [->|Hy2]; simpl.
    + tauto.
    + destruct (Ascii.eqb_spec y "_") as [->|Hy3]; simpl; [tauto|].
      split; [congruence|]. intros [?|[_ ?]]; congruence.
    + destruct (Ascii.eqb_spec x "_") as [->|Hx3]; simpl; [tauto|].
      split; [congruence|]. intros [?|[? _]]; congruence.
    + destruct (Ascii.eqb_spec x "_") as [->|Hx3], (Ascii.eqb_spec y "_") as [->|Hy3];
        simpl; try tauto.
      * split; [congruence|]. intros [?|[_ ?]]; congruence.
      * split; [congruence|]. intros [?|[? _]]; congruence.
      * split; [auto|]. intros [?|[? _]]; congruence.
Qed.

(** Two node identifiers are saved under the same file name exactly when
    they agree up to which of [:], [-] and [_] stands at each place: the
    response for [1:2] overwrites the one for [1-2]. *)
Theorem same_file_iff_alike (a b : string) :
  ToJson.file_path a = ToJson.file_path b ↔ alike a b.
Proof.
  unfold ToJson.file_path, alike.
  assert (ToJson.safe_node_id a = ToJson.safe_node_id b
          ↔ Forall2 (λ x y, x = y ∨ is_separator x = true ∧ is_separator y = true)
                    (chars a) (chars b)) as <-.
  { revert b. induction a as [|x a IH]; intros [|y b].
    - split; [constructor|done].
    - split; [done|]. intros H. inversion H.
    - split; [done|]. intros H. inversion H.
    - rewrite !safe_node_id_cons. unfold chars. simpl. fold (chars a) (chars b). split.
      + intros [= Hc Hs]. constructor; [by apply safe_char_alike|by apply IH].
      + intros H. inversion H as [|? ? ? ? Hc Hs]; subst.
        apply safe_char_alike in Hc. apply IH in Hs. by rewrite Hc, Hs. }
  split; [|by intros ->].
  intros H. apply chars_inj. apply (f_equal chars) in H. rewrite !chars_app in H.
  apply app_inv_head in H. by apply app_inv_tail in H.
Qed.

(** The file name keeps the length of the identifier and holds neither
    [:] nor [-]; an identifier without them is used as it is. *)
Theorem safe_node_id_shape (NODE_ID : string) :
  String.length (ToJson.safe_node_id NODE_ID) = String.length NODE_ID
  ∧ Forall (λ c, c ≠ ":"%char ∧ c ≠ "-"%char) (chars (ToJson.safe_node_id NODE_ID))
  ∧ (Forall (λ c, c ≠ ":"%char ∧ c ≠ "-"%char) (chars NODE_ID) →
     ToJson.safe_node_id NODE_ID = NODE_ID).
Proof.
  induction NODE_ID as [|c s (IHlen & IHout & IHid)]; [by repeat constructor|].
  rewrite safe_node_id_cons. unfold chars. simpl. fold (chars s) (chars (ToJson.safe_node_id s)).
  split; [by rewrite IHlen|]. split.
  - constructor; [|done].
    destruct (Ascii.eqb_spec c ":") as [->|H1]; simpl; [done|].
    destruct (Ascii.eqb_spec c "-") as [->|H2]; done.
  - intros H. inversion H as [|? ? [H1 H2] Hs]; subst. rewrite (IHid Hs).
    destruct (Ascii.eqb_spec c ":") as [->|_]; [done|].
    by destruct (Ascii.eqb_spec c "-") as [->|_].
Qed.

Lemma same_file_iff_alike_witness :
  ToJson.file_path "1:2" = ToJson.file_path "1-2" ↔ alike "1:2" "1-2".
Proof. apply (same_file_iff_alike "1:2" "1-2"). Defined.

Lemma safe_node_id_shape_witness : ToJson.safe_node_id "188_210" = "188_210".
Proof.
  apply (proj2 (proj2 (safe_node_id_shape "188_210"))).
  repeat constructor; discriminate.
Defined.




